(** * TechMasterToolkit / youtube-automation: the pipeline orchestrator

    A shallow embedding of
      - [src/content_generator.py]  ([ContentGenerator.format_script_for_tts]),
      - [src/seo_optimizer.py]      ([SEOOptimizer._validate_metadata]),
      - [src/email_notifier.py]     ([EmailNotifier.send_error_notification]),
      - [src/pipeline.py]           ([VideoPipeline.run] and its stage wrappers),
    followed by the properties of the orchestrator.

    Conventions.
      - A Python [str] is a [string]; one [ascii] stands for one character
        (code points 0..255), [len] is [String.length].
      - A Python [dict] whose keys are read with [.get(key, default)] and
        whose values have a fixed type is a record of [option] fields
        ([None] = key absent).  The run record [results], whose key set is
        what the orchestrator decides, is an insertion-ordered association
        list, as a Python dict is.
      - An exception is an instance of a subclass of [Exception]; [str(e)]
        is its message.
      - Calls to [self.logger] and [print] are not modelled. *)

From Stdlib Require Import String Ascii List Bool Arith ZArith QArith Lia.
Import ListNotations.
Close Scope Q_scope.
Open Scope string_scope.
Open Scope list_scope.
Open Scope nat_scope.

(** String concatenation, Python's [+] on [str]. *)
Infix "+++" := String.append (right associativity, at level 60).

Set Implicit Arguments.

(* ================================================================== *)
(** ** Python strings *)

Module PyStr.

(** [s[:n]] for [0 <= n]. *)
Fixpoint take (n : nat) (s : string) : string :=
  match n, s with
  | O, _ => EmptyString
  | S _, EmptyString => EmptyString
  | S n', String c s' => String c (take n' s')
  end.

(** [sep.join(parts)]. *)
Definition join (sep : string) (parts : list string) : string :=
  String.concat sep parts.

(** [s.startswith(p)]. *)
Definition startswith (p s : string) : bool := String.prefix p s.

(** [c.isspace()] on code points 0..255: TAB, LF, VT, FF, CR, the
    separators FS, GS, RS, US, SPACE, NEL and NBSP. *)
Definition isspace (c : ascii) : bool :=
  let n := nat_of_ascii c in
  ((9 <=? n) && (n <=? 13)) || ((28 <=? n) && (n <=? 32))
  || (n =? 133) || (n =? 160).

(** [s.split()] with no argument: the maximal runs of non-whitespace
    characters, in order.  [cur] is the word being read. *)
Fixpoint split_from (cur : string) (s : string) : list string :=
  match s with
  | EmptyString =>
      match cur with EmptyString => [] | _ => [cur] end
  | String c s' =>
      if isspace c
      then match cur with
           | EmptyString => split_from EmptyString s'
           | _ => cur :: split_from EmptyString s'
           end
      else split_from (cur +++ String c EmptyString) s'
  end.

Definition split (s : string) : list string := split_from EmptyString s.

(** [l[-n:]] for [0 < n]: the last [n] elements, the whole list when it
    has fewer. *)
Definition last_n {A} (n : nat) (l : list A) : list A :=
  skipn (List.length l - n) l.

(** [l[:n]]. *)
Definition first_n {A} (n : nat) (l : list A) : list A := firstn n l.

Definition nonempty (s : string) : bool :=
  match s with EmptyString => false | _ => true end.

End PyStr.

(* ================================================================== *)
(** ** Payloads *)

(** One element of [script_data["main_content"]]. *)
Record Section_ : Type := mkSection {
  section_title : option string;
  content       : option string
}.

(** The script dict returned by [ContentGenerator.generate_script]. *)
Record ScriptData : Type := mkScript {
  topic        : option string;
  hook         : option string;
  introduction : option string;
  main_content : option (list Section_);
  conclusion   : option string
}.

(** The metadata dict of [SEOOptimizer]. *)
Record Metadata : Type := mkMeta {
  title          : option string;
  description    : option string;
  tags           : option (list string);
  hashtags       : option (list string);
  keywords       : option (list string);
  generated_at   : option string;
  original_topic : option string;
  thumbnail_text : option string
}.

(** [d.get(key, default)] on an optional field. *)
Definition get {A} (field : option A) (default : A) : A :=
  match field with Some v => v | None => default end.

(* ================================================================== *)
(** ** content_generator.py *)

Module ContentGenerator.

(** [format_script_for_tts], lines 118-133. *)
Definition tts_parts (script_data : ScriptData) : list string :=
  [ get (hook script_data) ""; get (introduction script_data) "" ]
  ++ map (fun section => get (content section) "")
         (get (main_content script_data) [])
  ++ [ get (conclusion script_data) "" ].

Definition newline : string := String (ascii_of_nat 10) EmptyString.

Definition pause : string := newline +++ newline.

Definition format_script_for_tts (script_data : ScriptData) : string :=
  PyStr.join pause (tts_parts script_data).

(** The flattening as the specification words it: the same fields in the
    same order, the empty and the absent ones skipped, the remaining ones
    joined by a blank line. *)
Definition flatten_skipping_empty (script_data : ScriptData) : string :=
  PyStr.join pause (filter PyStr.nonempty (tts_parts script_data)).

End ContentGenerator.

(* ================================================================== *)
(** ** seo_optimizer.py *)

Module SEOOptimizer.

Definition ellipsis : string := "...".

(** Lines 109-110. *)
Definition validate_title (m : Metadata) : Metadata :=
  if 60 <? String.length (get (title m) "")
  then mkMeta (Some (PyStr.take 57 (get (title m) "") +++ ellipsis))
              (description m) (tags m) (hashtags m) (keywords m)
              (generated_at m) (original_topic m) (thumbnail_text m)
  else m.

(** Lines 113-114. *)
Definition validate_description (m : Metadata) : Metadata :=
  if 5000 <? String.length (get (description m) "")
  then mkMeta (title m)
              (Some (PyStr.take 4997 (get (description m) "") +++ ellipsis))
              (tags m) (hashtags m) (keywords m)
              (generated_at m) (original_topic m) (thumbnail_text m)
  else m.

(** Lines 117-119. *)
Definition validate_tags (m : Metadata) : Metadata :=
  match tags m with
  | Some ts =>
      mkMeta (title m) (description m) (Some (PyStr.first_n 30 ts))
             (hashtags m) (keywords m)
             (generated_at m) (original_topic m) (thumbnail_text m)
  | None => m
  end.

(** The body of the loop of lines 124-127. *)
Definition fix_hashtag (tag : string) : string :=
  if negb (PyStr.startswith "#" tag) then "#" +++ tag else tag.

(** Lines 122-128. *)
Definition validate_hashtags (m : Metadata) : Metadata :=
  match hashtags m with
  | Some hs =>
      mkMeta (title m) (description m) (tags m)
             (Some (map fix_hashtag (PyStr.first_n 15 hs))) (keywords m)
             (generated_at m) (original_topic m) (thumbnail_text m)
  | None => m
  end.

(** [_validate_metadata], lines 106-130: the four steps in sequence. *)
Definition _validate_metadata (metadata : Metadata) : Metadata :=
  validate_hashtags
    (validate_tags (validate_description (validate_title metadata))).

End SEOOptimizer.

(* ================================================================== *)
(** ** Exceptions, dynamic values and the two effect layers *)

(** An exception object: its class name and the text [str(e)] returns. *)
Record exc : Type := mkExc {
  exc_class : string;
  exc_msg   : string
}.

(** What a call does: it returns a value or raises. *)
Inductive outcome (A : Type) : Type :=
| Ret (a : A)
| Raise (e : exc).

Arguments Ret {A} a.
Arguments Raise {A} e.

(** The values stored in the run record. [PIso t] is
    [datetime.isoformat()] of the instant [t] (microseconds), [PNum] a
    float. *)
#[warnings="-register-all"] Inductive pyval : Type :=
| PNone
| PStr (s : string)
| PNum (q : Q)
| PIso (t : Z)
| PScript (script_data : ScriptData)
| PMeta (metadata : Metadata)
| PDict (items : list (string * pyval)).

(** A Python dict with string keys, in insertion order. *)
Definition dict : Type := list (string * pyval).

(** [d.get(key)]. *)
Fixpoint dict_get (key : string) (d : dict) : option pyval :=
  match d with
  | [] => None
  | (k, v) :: rest => if String.eqb k key then Some v else dict_get key rest
  end.

(** [d[key] = v]: an existing key keeps its position, a new one is
    appended. *)
Fixpoint dict_set (key : string) (v : pyval) (d : dict) : dict :=
  match d with
  | [] => [(key, v)]
  | (k, v0) :: rest =>
      if String.eqb k key then (k, v) :: rest
      else (k, v0) :: dict_set key v rest
  end.

(** [d.get('status') == s]. *)
Definition status_is (d : dict) (s : string) : bool :=
  match dict_get "status" d with
  | Some (PStr s') => String.eqb s' s
  | _ => false
  end.

(** The calls the orchestrator makes on its collaborators and on the file
    system, with their arguments. *)
Inductive event : Type :=
| CallGenerateScript (topic : option string)
| CallSaveScript (script_data : ScriptData)
| CallGenerateMetadata (script_data : ScriptData)
| CallGenerateThumbnailText (metadata : Metadata)
| CallSaveMetadata (metadata : Metadata)
| CallCreateThumbnail (text : string) (subtitle : option string)
| CallCreateFullAudio (text : string)
| CallCreateVideo (audio_path thumbnail_path : string) (script_data : ScriptData)
| CallUploadVideo (video_path : string) (metadata : Metadata) (thumbnail_path : string)
| CallSendSuccessNotification (video_data : dict) (metadata : Metadata)
| CallSendErrorNotification (error_message stage : string)
| CallJsonDump (timestamp : Z) (results : dict).

(** How each collaborator answers.  [json_dump] is the [open] and
    [json.dump] of [_save_results]; [clock n] is what the [n]-th
    [datetime.now()] of the orchestrator returns. *)
Record Collaborators : Type := mkCollaborators {
  generate_script           : option string -> outcome ScriptData;
  save_script               : ScriptData -> outcome string;
  generate_metadata         : ScriptData -> outcome Metadata;
  generate_thumbnail_text   : Metadata -> outcome string;
  save_metadata             : Metadata -> outcome string;
  create_thumbnail          : string -> option string -> outcome string;
  create_full_audio         : string -> outcome (string * Q);
  create_video              : string -> string -> ScriptData -> outcome string;
  upload_video              : string -> Metadata -> string -> outcome dict;
  send_success_notification : dict -> Metadata -> outcome bool;
  send_error_notification   : string -> string -> outcome bool;
  json_dump                 : Z -> dict -> outcome unit;
  clock                     : nat -> Z
}.

(** What [run] can change: its local [results] dict, the calls made so
    far, the result files written, and the number of clock reads. *)
Record world : Type := mkWorld {
  results : dict;
  trace   : list event;
  files   : list (Z * dict);
  ticks   : nat
}.

Definition init_world : world := mkWorld [] [] [] 0.

(** The stage wrappers only call collaborators: a computation there is
    the calls it makes and its outcome. *)
Definition W (A : Type) : Type := (list event * outcome A)%type.

(** [run] also mutates [results], reads the clock and writes a file. *)
Definition M (A : Type) : Type := world -> (outcome A * world)%type.

Class PyMonad (m : Type -> Type) : Type := {
  ret   : forall {A}, A -> m A;
  bind  : forall {A B}, m A -> (A -> m B) -> m B;
  raise : forall {A}, exc -> m A;
  (** [try: body except Exception as e: handler] *)
  catch : forall {A}, m A -> (exc -> m A) -> m A
}.

Notation "x <- c1 ;; c2" := (bind c1 (fun x => c2))
  (at level 61, c1 at next level, right associativity).
Notation "' pat <- c1 ;; c2" :=
  (bind c1 (fun x => match x with pat => c2 end))
  (at level 61, pat pattern, c1 at next level, right associativity).
Notation "c1 ;; c2" := (bind c1 (fun _ => c2))
  (at level 61, right associativity).

#[export] Instance W_monad : PyMonad W := {
  ret A a := ([], Ret a);
  bind A B m k :=
    match m with
    | (t, Ret a) => let (t', o) := k a in (t ++ t', o)
    | (t, Raise e) => (t, Raise e)
    end;
  raise A e := ([], Raise e);
  catch A m h :=
    match m with
    | (t, Raise e) => let (t', o) := h e in (t ++ t', o)
    | (t, Ret a) => (t, Ret a)
    end
}.

#[export] Instance M_monad : PyMonad M := {
  ret A a := fun w => (Ret a, w);
  bind A B m k := fun w =>
    match m w with
    | (Ret a, w') => k a w'
    | (Raise e, w') => (Raise e, w')
    end;
  raise A e := fun w => (Raise e, w);
  catch A m h := fun w =>
    match m w with
    | (Raise e, w') => h e w'
    | (Ret a, w') => (Ret a, w')
    end
}.

(** A collaborator call in a stage wrapper. *)
Definition call {A} (ev : event) (o : outcome A) : W A := ([ev], o).

(** A stage wrapper run inside [run]: its calls are appended to the trace. *)
Definition lift {A} (m : W A) : M A := fun w =>
  (snd m, mkWorld (results w) (trace w ++ fst m) (files w) (ticks w)).

(** The outcome of a stage wrapper. *)
Definition result_of {A} (m : W A) : outcome A := snd m.

(** The calls a stage wrapper makes. *)
Definition calls_of {A} (m : W A) : list event := fst m.

(* ================================================================== *)
(** ** email_notifier.py *)

Module EmailNotifier.

(** The settings [__init__] copies, each a string or [None]. *)
Record config : Type := mkConfig {
  smtp_server     : option string;
  sender_email    : option string;
  sender_password : option string
}.

(** Truth value of a string or [None]. *)
Definition truthy (v : option string) : bool :=
  match v with Some s => PyStr.nonempty s | None => false end.

(** [_send_email], lines 65-92.  [session] is what building the message
    and talking to the SMTP server do. *)
Definition _send_email (self : config) (session : outcome unit) : bool :=
  if negb (truthy (smtp_server self) && truthy (sender_email self)
           && truthy (sender_password self))
  then false
  else match session with
       | Ret _ => true
       | Raise _ => false
       end.

(** [send_error_notification], lines 46-63; [session error_message
    stage] is the SMTP session for the mail about that failure. *)
Definition send_error_notification (self : config)
    (session : string -> string -> outcome unit)
    (error_message stage : string) : bool :=
  let success := _send_email self (session error_message stage) in
  success.

End EmailNotifier.

(* ================================================================== *)
(** ** pipeline.py: [VideoPipeline] *)

Module VideoPipeline.
Section WithCollaborators.

Variable self : Collaborators.

(** [datetime.now()]. *)
Definition now : M Z := fun w =>
  (Ret (clock self (ticks w)),
   mkWorld (results w) (trace w) (files w) (S (ticks w))).

(** [results = {...}] *)
Definition new_results (d : dict) : M unit := fun w =>
  (Ret tt, mkWorld d (trace w) (files w) (ticks w)).

(** Reading the local [results]. *)
Definition the_results : M dict := fun w => (Ret (results w), w).

(** [results[key] = v] *)
Definition set_item (key : string) (v : pyval) : M unit := fun w =>
  (Ret tt, mkWorld (dict_set key v (results w)) (trace w) (files w) (ticks w)).

(** [results['stages'][name] = entry] *)
Definition set_stage (name : string) (entry : dict) : M unit := fun w =>
  match dict_get "stages" (results w) with
  | Some (PDict stages) =>
      (Ret tt,
       mkWorld (dict_set "stages" (PDict (dict_set name (PDict entry) stages))
                         (results w))
               (trace w) (files w) (ticks w))
  | Some _ => (Raise (mkExc "TypeError" "object does not support item assignment"), w)
  | None => (Raise (mkExc "KeyError" "'stages'"), w)
  end.

(** The file [pipeline_results_<timestamp>.json] now holds [d]. *)
Definition file_written (timestamp : Z) (d : dict) : M unit := fun w =>
  (Ret tt, mkWorld (results w) (trace w) (files w ++ [(timestamp, d)]) (ticks w)).

(** A call made by [run] itself. *)
Definition call_here {A} (ev : event) (o : outcome A) : M A := lift (call ev o).

(** [_generate_content], lines 144-153. *)
Definition _generate_content (topic : option string) : W ScriptData :=
  catch
    (script_data <- call (CallGenerateScript topic) (generate_script self topic) ;;
     call (CallSaveScript script_data) (save_script self script_data) ;;
     ret script_data)
    (fun e => raise e).

(** [metadata['thumbnail_text'] = thumbnail_text] *)
Definition with_thumbnail_text (m : Metadata) (text : string) : Metadata :=
  mkMeta (title m) (description m) (tags m) (hashtags m) (keywords m)
         (generated_at m) (original_topic m) (Some text).

(** [_generate_seo], lines 155-166. *)
Definition _generate_seo (script_data : ScriptData) : W Metadata :=
  catch
    (metadata <- call (CallGenerateMetadata script_data)
                      (generate_metadata self script_data) ;;
     thumbnail_text <- call (CallGenerateThumbnailText metadata)
                            (generate_thumbnail_text self metadata) ;;
     let metadata := with_thumbnail_text metadata thumbnail_text in
     call (CallSaveMetadata metadata) (save_metadata self metadata) ;;
     ret metadata)
    (fun e => raise e).

(** Lines 173-174 of [_create_thumbnail]. *)
Definition thumbnail_subtitle (metadata : Metadata) : option string :=
  let title_words := PyStr.split (get (title metadata) "") in
  if 3 <? List.length title_words
  then Some (PyStr.join " " (PyStr.last_n 3 title_words))
  else None.

(** [_create_thumbnail], lines 168-184. *)
Definition _create_thumbnail (metadata : Metadata) : W string :=
  catch
    (let thumbnail_text :=
       get (thumbnail_text metadata) (get (title metadata) "VIDEO") in
     let subtitle := thumbnail_subtitle metadata in
     thumbnail_path <- call (CallCreateThumbnail thumbnail_text subtitle)
                            (create_thumbnail self thumbnail_text subtitle) ;;
     ret thumbnail_path)
    (fun e => raise e).

(** [_generate_audio], lines 186-195. *)
Definition _generate_audio (script_data : ScriptData) : W (string * Q) :=
  catch
    (let text := ContentGenerator.format_script_for_tts script_data in
     ' (audio_path, duration) <- call (CallCreateFullAudio text)
                                      (create_full_audio self text) ;;
     ret (audio_path, duration))
    (fun e => raise e).

(** [_create_video], lines 197-209. *)
Definition _create_video (audio_path thumbnail_path : string)
                         (script_data : ScriptData) : W string :=
  catch
    (video_path <- call (CallCreateVideo audio_path thumbnail_path script_data)
                        (create_video self audio_path thumbnail_path script_data) ;;
     ret video_path)
    (fun e => raise e).

(** [_upload_to_youtube], lines 211-228: an exception of the uploader
    becomes an error result. *)
Definition _upload_to_youtube (video_path : string) (metadata : Metadata)
                              (thumbnail_path : string) : W dict :=
  catch
    (result <- call (CallUploadVideo video_path metadata thumbnail_path)
                    (upload_video self video_path metadata thumbnail_path) ;;
     ret result)
    (fun e => ret [("status", PStr "error"); ("error", PStr (exc_msg e))]).

(** [_send_notification], lines 230-236: the notifier's answer is
    dropped and its exception swallowed. *)
Definition _send_notification (upload_result : dict) (metadata : Metadata)
  : W unit :=
  catch
    (call (CallSendSuccessNotification upload_result metadata)
          (send_success_notification self upload_result metadata) ;;
     ret tt)
    (fun e => ret tt).

(** The loop of [_get_failed_stage], lines 241-244. *)
Fixpoint first_error_stage (stages : dict) : outcome string :=
  match stages with
  | [] => Ret "Unknown"
  | (stage_name, PDict stage_data) :: rest =>
      if status_is stage_data "error" then Ret stage_name
      else first_error_stage rest
  | (_, _) :: _ =>
      Raise (mkExc "AttributeError" "object has no attribute 'get'")
  end.

(** [_get_failed_stage], lines 238-244. *)
Definition _get_failed_stage (results : dict) : outcome string :=
  match dict_get "stages" results with
  | None => first_error_stage []
  | Some (PDict stages) => first_error_stage stages
  | Some _ => Raise (mkExc "AttributeError" "object has no attribute 'items'")
  end.

(** [_save_results], lines 246-257: the file is named after the time of
    the write; a failed write is swallowed.  [CallJsonDump] records the
    attempt to write, the whole [with open(...) as f: json.dump(...)] of
    lines 252-253, which [json_dump self] answers as one step: it raises
    when [open] or [json.dump] does. *)
Definition _save_results (results : dict) : M unit :=
  catch
    (timestamp <- now ;;
     call_here (CallJsonDump timestamp results)
               (json_dump self timestamp results) ;;
     file_written timestamp results)
    (fun e => ret tt).

(** A pure helper of [self] evaluated inside [run]. *)
Definition eval {A} (o : outcome A) : M A := fun w => (o, w).

(** [(end_time - start_time).total_seconds()], instants in microseconds. *)
Definition total_seconds (start_time end_time : Z) : Q :=
  Qmake (end_time - start_time) 1000000.

(** The [try] block of [run], lines 67-124. *)
Definition run_try (topic : option string) (upload send_email : bool)
                   (start_time : Z) : M dict :=
  (* Stage 1: Generate Content *)
  script_data <- lift (_generate_content topic) ;;
  set_stage "content_generation"
    [("status", PStr "success"); ("data", PScript script_data)] ;;
  (* Stage 2: Generate SEO Metadata *)
  metadata <- lift (_generate_seo script_data) ;;
  set_stage "seo_optimization"
    [("status", PStr "success"); ("data", PMeta metadata)] ;;
  (* Stage 3: Create Thumbnail *)
  thumbnail_path <- lift (_create_thumbnail metadata) ;;
  set_stage "thumbnail_creation"
    [("status", PStr "success"); ("path", PStr thumbnail_path)] ;;
  (* Stage 4: Generate Audio *)
  ' (audio_path, duration) <- lift (_generate_audio script_data) ;;
  set_stage "audio_production"
    [("status", PStr "success"); ("path", PStr audio_path);
     ("duration", PNum duration)] ;;
  (* Stage 5: Create Video *)
  video_path <- lift (_create_video audio_path thumbnail_path script_data) ;;
  set_stage "video_editing"
    [("status", PStr "success"); ("path", PStr video_path)] ;;
  (* Stage 6: Upload to YouTube *)
  (if upload then
     upload_result <- lift (_upload_to_youtube video_path metadata thumbnail_path) ;;
     set_stage "youtube_upload" upload_result ;;
     (* Stage 7: Send Email Notification *)
     if send_email && status_is upload_result "success" then
       lift (_send_notification upload_result metadata) ;;
       set_stage "email_notification" [("status", PStr "success")]
     else ret tt
   else
     set_stage "youtube_upload" [("status", PStr "skipped")]) ;;
  (* Pipeline completed successfully *)
  end_time <- now ;;
  let duration := total_seconds start_time end_time in
  set_item "status" (PStr "success") ;;
  set_item "end_time" (PIso end_time) ;;
  set_item "duration_seconds" (PNum duration) ;;
  (* Save results *)
  results <- the_results ;;
  _save_results results ;;
  ret results.

(** The [except Exception as e] block of [run], lines 126-142.  The
    inner [try ... except: pass] swallows whatever the attribution or
    the notifier raises. *)
Definition run_except (send_email : bool) (e : exc) : M dict :=
  set_item "status" (PStr "error") ;;
  set_item "error" (PStr (exc_msg e)) ;;
  end_time <- now ;;
  set_item "end_time" (PIso end_time) ;;
  (* Send error notification *)
  (if send_email then
     catch
       (results <- the_results ;;
        stage <- eval (_get_failed_stage results) ;;
        call_here (CallSendErrorNotification (exc_msg e) stage)
                  (send_error_notification self (exc_msg e) stage) ;;
        ret tt)
       (fun _ => ret tt)
   else ret tt) ;;
  results <- the_results ;;
  _save_results results ;;
  raise e.

(** [run], lines 54-142. *)
Definition run (topic : option string) (upload send_email : bool) : M dict :=
  start_time <- now ;;
  new_results [("status", PStr "running");
               ("start_time", PIso start_time);
               ("stages", PDict [])] ;;
  catch (run_try topic upload send_email start_time)
        (run_except send_email).

End WithCollaborators.
End VideoPipeline.

(* ================================================================== *)
(** ** Reading a run record *)

(** [results['stages']], empty when missing. *)
Definition stages_of (r : dict) : dict :=
  match dict_get "stages" r with
  | Some (PDict stages) => stages
  | _ => []
  end.

(** The names of the recorded stages, in insertion order. *)
Definition stage_names (r : dict) : list string := map fst (stages_of r).

(** [results['stages'].get(name)]. *)
Definition stage_entry (name : string) (r : dict) : option pyval :=
  dict_get name (stages_of r).

(** [key in results]. *)
Definition has_key (key : string) (r : dict) : bool :=
  match dict_get key r with Some _ => true | None => false end.

(** The five fail-fast stages, in execution order. *)
Definition fail_fast_stages : list string :=
  ["content_generation"; "seo_optimization"; "thumbnail_creation";
   "audio_production"; "video_editing"].

Definition is_success_call (ev : event) : bool :=
  match ev with CallSendSuccessNotification _ _ => true | _ => false end.

Definition is_error_call (ev : event) : bool :=
  match ev with CallSendErrorNotification _ _ => true | _ => false end.

(* ================================================================== *)
(** ** How a run goes *)

Section Runs.

Variable self : Collaborators.
Variable topic : option string.

Import VideoPipeline.

(** Stages 1-5 all return, with these values. *)
Definition stages_succeed (script_data : ScriptData) (metadata : Metadata)
    (thumbnail_path audio_path : string) (duration : Q)
    (video_path : string) : Prop :=
  result_of (_generate_content self topic) = Ret script_data /\
  result_of (_generate_seo self script_data) = Ret metadata /\
  result_of (_create_thumbnail self metadata) = Ret thumbnail_path /\
  result_of (_generate_audio self script_data) = Ret (audio_path, duration) /\
  result_of (_create_video self audio_path thumbnail_path script_data)
    = Ret video_path.

(** Stage [k] is the first one to raise, and it raises [e]. *)
Inductive raises_at : nat -> exc -> Prop :=
| raises_at_1 e :
    result_of (_generate_content self topic) = Raise e ->
    raises_at 1 e
| raises_at_2 script_data e :
    result_of (_generate_content self topic) = Ret script_data ->
    result_of (_generate_seo self script_data) = Raise e ->
    raises_at 2 e
| raises_at_3 script_data metadata e :
    result_of (_generate_content self topic) = Ret script_data ->
    result_of (_generate_seo self script_data) = Ret metadata ->
    result_of (_create_thumbnail self metadata) = Raise e ->
    raises_at 3 e
| raises_at_4 script_data metadata thumbnail_path e :
    result_of (_generate_content self topic) = Ret script_data ->
    result_of (_generate_seo self script_data) = Ret metadata ->
    result_of (_create_thumbnail self metadata) = Ret thumbnail_path ->
    result_of (_generate_audio self script_data) = Raise e ->
    raises_at 4 e
| raises_at_5 script_data metadata thumbnail_path audio_path duration e :
    result_of (_generate_content self topic) = Ret script_data ->
    result_of (_generate_seo self script_data) = Ret metadata ->
    result_of (_create_thumbnail self metadata) = Ret thumbnail_path ->
    result_of (_generate_audio self script_data) = Ret (audio_path, duration) ->
    result_of (_create_video self audio_path thumbnail_path script_data)
      = Raise e ->
    raises_at 5 e.

End Runs.

(** The outcome and the final world of one invocation of [run]. *)
Definition execute (self : Collaborators) (topic : option string)
    (upload send_email : bool) : outcome dict * world :=
  VideoPipeline.run self topic upload send_email init_world.

(* ================================================================== *)
(** ** Sample collaborators *)

Module Samples.

Definition script : ScriptData :=
  mkScript (Some "cloud computing explained")
           (Some "Ever wondered where your files live?")
           (Some "Today we look at the cloud.")
           (Some [mkSection (Some "Basics") (Some "Servers, rented.");
                  mkSection (Some "Costs") (Some "Pay as you go.")])
           (Some "Thanks for watching!").

Definition metadata : Metadata :=
  mkMeta (Some "Cloud Computing Explained For Absolute Beginners")
         (Some "Learn about cloud computing in this comprehensive guide.")
         (Some ["technology"; "cloud"])
         (Some ["#tech"; "#cloud"])
         (Some ["cloud computing"])
         (Some "2025-01-01T00:00:00")
         (Some "cloud computing explained")
         None.

Definition render_error (msg : string) : exc := mkExc "RenderError" msg.

Definition uploaded : dict :=
  [("video_id", PStr "abc123");
   ("video_url", PStr "https://www.youtube.com/watch?v=abc123");
   ("title", PStr "Cloud Computing Explained For Absolute Beginners");
   ("status", PStr "success")].

Definition upload_rejected : dict :=
  [("status", PStr "error"); ("error", PStr "quotaExceeded")].

(** Collaborators that all succeed, except as the arguments say: what
    the audio renderer, the uploader, the two notifier entry points and
    the write of the results file do. *)
Definition studio (audio : outcome (string * Q)) (upload : outcome dict)
    (mail_success mail_error : outcome bool) (dump : outcome unit)
    : Collaborators :=
  mkCollaborators
    (fun _ => Ret script)
    (fun _ => Ret "output/script.json")
    (fun _ => Ret metadata)
    (fun _ => Ret "CLOUD EXPLAINED")
    (fun _ => Ret "output/metadata.json")
    (fun _ _ => Ret "output/thumbnail.png")
    (fun _ => audio)
    (fun _ _ _ => Ret "output/video.mp4")
    (fun _ _ _ => upload)
    (fun _ _ => mail_success)
    (fun _ _ => mail_error)
    (fun _ _ => dump)
    (fun n => (1700000000000000 + Z.of_nat n * 1000000)%Z).

Definition audio_ok : outcome (string * Q) := Ret ("output/audio.mp3", 42 # 1)%Q.

Definition happy : Collaborators :=
  studio audio_ok (Ret uploaded) (Ret true) (Ret true) (Ret tt).

Definition smtp_down : exc := mkExc "SMTPException" "connection refused".

Definition disk_error : exc := mkExc "OSError" "No space left on device".

End Samples.

(** The same collaborators with another error notifier. *)
Definition with_error_notifier (self : Collaborators)
    (notifier : string -> string -> outcome bool) : Collaborators :=
  mkCollaborators (generate_script self) (save_script self)
    (generate_metadata self) (generate_thumbnail_text self)
    (save_metadata self) (create_thumbnail self) (create_full_audio self)
    (create_video self) (upload_video self)
    (send_success_notification self) notifier
    (json_dump self) (clock self).

(** The same collaborators with another success notifier. *)
Definition with_success_notifier (self : Collaborators)
    (notifier : dict -> Metadata -> outcome bool) : Collaborators :=
  mkCollaborators (generate_script self) (save_script self)
    (generate_metadata self) (generate_thumbnail_text self)
    (save_metadata self) (create_thumbnail self) (create_full_audio self)
    (create_video self) (upload_video self)
    notifier (send_error_notification self)
    (json_dump self) (clock self).

(** The stage entries [run] has recorded when stages 1-5 are over: one
    per stage that returned, up to the first that raised. *)
Definition recorded_entries (self : Collaborators) (topic : option string)
    : dict :=
  match result_of (VideoPipeline._generate_content self topic) with
  | Raise _ => []
  | Ret sd =>
    ("content_generation",
     PDict [("status", PStr "success"); ("data", PScript sd)]) ::
    match result_of (VideoPipeline._generate_seo self sd) with
    | Raise _ => []
    | Ret md =>
      ("seo_optimization",
       PDict [("status", PStr "success"); ("data", PMeta md)]) ::
      match result_of (VideoPipeline._create_thumbnail self md) with
      | Raise _ => []
      | Ret tp =>
        ("thumbnail_creation",
         PDict [("status", PStr "success"); ("path", PStr tp)]) ::
        match result_of (VideoPipeline._generate_audio self sd) with
        | Raise _ => []
        | Ret (ap, d) =>
          ("audio_production",
           PDict [("status", PStr "success"); ("path", PStr ap);
                  ("duration", PNum d)]) ::
          match result_of (VideoPipeline._create_video self ap tp sd) with
          | Raise _ => []
          | Ret vp =>
            [("video_editing",
              PDict [("status", PStr "success"); ("path", PStr vp)])]
          end
        end
      end
    end
  end.

(** The calls stages 1-5 make, up to and including the first that raises. *)
Definition production_calls (self : Collaborators) (topic : option string)
    : list event :=
  calls_of (VideoPipeline._generate_content self topic) ++
  match result_of (VideoPipeline._generate_content self topic) with
  | Raise _ => []
  | Ret sd =>
    calls_of (VideoPipeline._generate_seo self sd) ++
    match result_of (VideoPipeline._generate_seo self sd) with
    | Raise _ => []
    | Ret md =>
      calls_of (VideoPipeline._create_thumbnail self md) ++
      match result_of (VideoPipeline._create_thumbnail self md) with
      | Raise _ => []
      | Ret tp =>
        calls_of (VideoPipeline._generate_audio self sd) ++
        match result_of (VideoPipeline._generate_audio self sd) with
        | Raise _ => []
        | Ret (ap, d) => calls_of (VideoPipeline._create_video self ap tp sd)
        end
      end
    end
  end.

(** The dict [_upload_to_youtube] returns. *)
Definition upload_result_of (self : Collaborators) (video_path : string)
    (metadata : Metadata) (thumbnail_path : string) : dict :=
  match upload_video self video_path metadata thumbnail_path with
  | Ret result => result
  | Raise e => [("status", PStr "error"); ("error", PStr (exc_msg e))]
  end.

(** The entries stages 6 and 7 add. *)
Definition publish_entries (upload send_email : bool) (upload_result : dict)
    : dict :=
  if upload
  then ("youtube_upload", PDict upload_result)
       :: (if send_email && status_is upload_result "success"
           then [("email_notification", PDict [("status", PStr "success")])]
           else [])
  else [("youtube_upload", PDict [("status", PStr "skipped")])].

(** The calls stages 6 and 7 make. *)
Definition publish_calls (upload send_email : bool) (video_path : string)
    (metadata : Metadata) (thumbnail_path : string) (upload_result : dict)
    : list event :=
  if upload
  then CallUploadVideo video_path metadata thumbnail_path
       :: (if send_email && status_is upload_result "success"
           then [CallSendSuccessNotification upload_result metadata]
           else [])
  else [].

(** The calls the [except] block of [run] makes on the notifier. *)
Definition error_calls (send_email : bool) (msg : string) (entries : dict)
    : list event :=
  if send_email
  then match VideoPipeline.first_error_stage entries with
       | Ret stage => [CallSendErrorNotification msg stage]
       | Raise _ => []
       end
  else [].

(** Every entry is a dict whose status is ['success']. *)
Definition all_success (entries : dict) : Prop :=
  Forall (fun kv => exists d, snd kv = PDict d /\ status_is d "success" = true)
         entries.

(** The record [run] leaves behind when it ends in its [except] block. *)
Definition error_record (start_time : Z) (entries : dict) (msg : string)
    (end_time : Z) : dict :=
  [("status", PStr "error"); ("start_time", PIso start_time);
   ("stages", PDict entries); ("error", PStr msg);
   ("end_time", PIso end_time)].

(** The record [run] returns from its [try] block. *)
Definition success_record (start_time : Z) (entries : dict) (end_time : Z)
    : dict :=
  [("status", PStr "success"); ("start_time", PIso start_time);
   ("stages", PDict entries); ("end_time", PIso end_time);
   ("duration_seconds",
    PNum (VideoPipeline.total_seconds start_time end_time))].

(** What [_save_results] leaves on disk. *)
Definition saved (self : Collaborators) (timestamp : Z) (r : dict)
    : list (Z * dict) :=
  match json_dump self timestamp r with
  | Ret _ => [(timestamp, r)]
  | Raise _ => []
  end.

Definition quiet (calls : list event) : Prop :=
  existsb is_error_call calls = false /\
  existsb is_success_call calls = false.

(** The characters of the parts, counted together. *)
Definition total_length (parts : list string) : nat :=
  list_sum (map String.length parts).

(** The text of the sections followed by the conclusion: every section
    body is followed by one pause. *)
Definition sections_then (sections : list Section_) (ending : string) : string :=
  fold_right (fun section rest =>
                get (content section) "" +++ ContentGenerator.pause +++ rest)
             ending sections.

(** A script whose hook is the empty string. *)
Definition script_without_hook : ScriptData :=
  mkScript (Some "cloud computing explained") (Some "")
           (Some "Today we look at the cloud.") (Some [])
           (Some "Thanks for watching!").

(** No character of [s] is whitespace. *)
Fixpoint no_space (s : string) : bool :=
  match s with
  | EmptyString => true
  | String c s' => negb (PyStr.isspace c) && no_space s'
  end.

(** A word: not empty, no whitespace. *)
Definition is_token (w : string) : bool := PyStr.nonempty w && no_space w.

(** A metadata dict with a title and nothing else. *)
Definition titled (t : string) : Metadata :=
  mkMeta (Some t) None None None None None None None.

(** Metadata that breaks three limits: a 70-character title, 31 tags, a
    hashtag without its [#]. *)
Definition oversized_metadata : Metadata :=
  mkMeta
    (Some "Cloud Computing Explained For Absolute Beginners: The Complete Guide!!")
    (Some "Learn about cloud computing in this comprehensive guide.")
    (Some (List.repeat "cloud" 31))
    (Some ["tech"; "#cloud"])
    None None None None.

(** The same collaborators with the [EmailNotifier] of
    [email_notifier.py] as error notifier. *)
Definition with_email_notifier (self : Collaborators)
    (settings : EmailNotifier.config)
    (session : string -> string -> outcome unit) : Collaborators :=
  with_error_notifier self
    (fun error_message stage =>
       Ret (EmailNotifier.send_error_notification settings session
              error_message stage)).

(** The seven stage names, in execution order. *)
Definition all_stage_names : list string :=
  fail_fast_stages ++ ["youtube_upload"; "email_notification"].

(** Collaborators whose uploader turns the video down. *)
Definition rejecting_uploader : Collaborators :=
  Samples.studio Samples.audio_ok (Ret Samples.upload_rejected)
                 (Ret true) (Ret true) (Ret tt).

(** Collaborators whose audio renderer raises [RenderError("disk full")]. *)
Definition failing_audio : Collaborators :=
  Samples.studio (Raise (Samples.render_error "disk full"))
                 (Ret Samples.uploaded) (Ret true) (Ret true) (Ret tt).

(** The same, on a machine where the results file cannot be written. *)
Definition failing_audio_full_disk : Collaborators :=
  Samples.studio (Raise (Samples.render_error "disk full"))
                 (Ret Samples.uploaded) (Ret true) (Ret true)
                 (Raise Samples.disk_error).

(** The metadata stage 2 hands on with the sample collaborators. *)
Definition sample_metadata : Metadata :=
  VideoPipeline.with_thumbnail_text Samples.metadata "CLOUD EXPLAINED".

(* ================================================================== *)
(** ** More of Python's [str] *)

Module PyText.

(** [s[n:]] for [0 <= n]. *)
Fixpoint drop (n : nat) (s : string) : string :=
  match n, s with
  | O, _ => s
  | S _, EmptyString => EmptyString
  | S n', String _ s' => drop n' s'
  end.

(** [s.lstrip(chars)], [p] telling the characters to remove. *)
Fixpoint lstrip (p : ascii -> bool) (s : string) : string :=
  match s with
  | EmptyString => EmptyString
  | String c s' => if p c then lstrip p s' else s
  end.

(** [s.rstrip(chars)]. *)
Fixpoint rstrip (p : ascii -> bool) (s : string) : string :=
  match s with
  | EmptyString => EmptyString
  | String c s' =>
      match rstrip p s' with
      | EmptyString => if p c then EmptyString else String c EmptyString
      | rest => String c rest
      end
  end.

(** [s.strip(chars)]. *)
Definition strip_chars (p : ascii -> bool) (s : string) : string :=
  rstrip p (lstrip p s).

(** [s.strip()]. *)
Definition strip (s : string) : string := strip_chars PyStr.isspace s.

(** [s.split(sep)] for a separator that is not empty: the pieces between
    the occurrences of [sep], found from left to right without overlap.
    [skip] counts the characters of an occurrence still to pass, [cur] is
    the piece being read. *)
Fixpoint split_on_from (sep : string) (skip : nat) (cur : string) (s : string)
  : list string :=
  match s with
  | EmptyString => [cur]
  | String c s' =>
      match skip with
      | S k => split_on_from sep k cur s'
      | O =>
          if String.prefix sep s
          then cur :: split_on_from sep (String.length sep - 1) EmptyString s'
          else split_on_from sep 0 (cur +++ String c EmptyString) s'
      end
  end.

Definition split_on (sep s : string) : list string :=
  split_on_from sep 0 EmptyString s.

(** The double and the single quote, the characters line 159 of
    seo_optimizer.py gives to [strip]. *)
Definition is_quote (c : ascii) : bool :=
  (nat_of_ascii c =? 34) || (nat_of_ascii c =? 39).

(** Truth value of a string. *)
Definition truthy (s : string) : bool := PyStr.nonempty s.

End PyText.

(** [outcome] as a monad: a raise ends the sequence. *)
#[export] Instance outcome_monad : PyMonad outcome := {
  ret A a := Ret a;
  bind A B m k :=
    match m with
    | Ret a => k a
    | Raise e => Raise e
    end;
  raise A e := Raise e;
  catch A m h :=
    match m with
    | Raise e => h e
    | Ret a => Ret a
    end
}.

(** [isinstance(e, json.JSONDecodeError)]. *)
Definition is_json_decode_error (e : exc) : bool :=
  String.eqb (exc_class e) "JSONDecodeError".

(** The code fence of Markdown, three backquotes. *)
Definition fence : string := "```".

(** The removal of a Markdown code block, lines 95-98 of
    content_generator.py and 67-70 of seo_optimizer.py: of a text that
    starts with a fence, the piece after it, without a leading [json]. *)
Definition strip_code_fence (text : string) : outcome string :=
  if PyStr.startswith fence text
  then match PyText.split_on fence text with
       | _ :: inner :: _ =>
           if PyStr.startswith "json" inner
           then Ret (PyText.drop 4 inner)
           else Ret inner
       | _ => Raise (mkExc "IndexError" "list index out of range")
       end
  else Ret text.

(* ================================================================== *)
(** ** thumbnail_creator.py *)

Module ThumbnailCreator.

(** The variables of the loop of [_wrap_text]. *)
Record wrapping : Type := mkWrapping {
  lines          : list string;
  current_line   : list string;
  current_length : nat
}.

(** The line the words read so far make, if there are any: lines 205-206
    and 210-211. *)
Definition flush (current_line : list string) : list string :=
  match current_line with
  | [] => []
  | _ => [PyStr.join " " current_line]
  end.

(** The body of the loop, lines 201-208. *)
Definition wrap_word (max_chars : nat) (st : wrapping) (word : string)
  : wrapping :=
  if current_length st + String.length word + 1 <=? max_chars
  then mkWrapping (lines st) (current_line st ++ [word])
                  (current_length st + String.length word + 1)
  else mkWrapping (lines st ++ flush (current_line st)) [word]
                  (String.length word).

(** The list [lines] at the end of [_wrap_text], lines 195-211. *)
Definition wrap_lines (text : string) (max_chars : nat) : list string :=
  let st := fold_left (wrap_word max_chars) (PyStr.split text)
                      (mkWrapping [] [] 0) in
  lines st ++ flush (current_line st).

(** [_wrap_text], lines 193-213. *)
Definition _wrap_text (text : string) (max_chars : nat) : string :=
  PyStr.join ContentGenerator.newline (wrap_lines text max_chars).

End ThumbnailCreator.

(* ================================================================== *)
(** ** seo_optimizer.py: the functions that call the model *)

Module SEOOptimizerCalls.

(** The fallback metadata of lines 75-81. *)
Definition fallback_metadata (topic : string) : Metadata :=
  mkMeta (Some (PyStr.take 60 topic))
         (Some ("Learn about " +++ topic +++ " in this comprehensive guide."))
         (Some ["technology"; "tech"; "tutorial"; "education"])
         (Some ["#tech"; "#technology"; "#tutorial"])
         (Some [topic])
         None None None.

(** Lines 87-88. *)
Definition with_generation_info (m : Metadata) (now : string) (topic : string)
  : Metadata :=
  mkMeta (title m) (description m) (tags m) (hashtags m) (keywords m)
         (Some now) (Some topic) (thumbnail_text m).

(** [generate_metadata], lines 23-90.  [completion] is what the chat
    completion call does (its answer is [message.content]), [json_loads]
    is [json.loads] on the value it would parse, [now] is
    [datetime.now().isoformat()]. *)
Definition generate_metadata (completion : outcome string)
    (json_loads : string -> outcome Metadata) (now : string)
    (script_data : ScriptData) : outcome Metadata :=
  let topic := get (topic script_data) "Technology" in
  content <- completion ;;
  let metadata_text := PyText.strip content in
  metadata <-
    catch (metadata_text <- strip_code_fence metadata_text ;;
           json_loads metadata_text)
          (fun e => if is_json_decode_error e
                    then Ret (fallback_metadata topic)
                    else Raise e) ;;
  let metadata := SEOOptimizer._validate_metadata metadata in
  Ret (with_generation_info metadata now topic).

(** [generate_thumbnail_text], lines 132-163; [completion] as above.  The
    bare [except] turns any failure of the call into the first three
    words. *)
Definition generate_thumbnail_text (completion : outcome string)
    (metadata : Metadata) : string :=
  let title := get (title metadata) "" in
  let words := PyStr.split title in
  if List.length words <=? 3 then title
  else match completion with
       | Ret content =>
           let thumbnail_text := PyText.strip content in
           PyText.strip_chars PyText.is_quote thumbnail_text
       | Raise _ => PyStr.join " " (PyStr.first_n 3 words)
       end.

End SEOOptimizerCalls.

(* ================================================================== *)
(** ** content_generator.py: the functions that call the model *)

Module ContentGeneratorCalls.

(** [EVERGREEN_TOPICS] of config/settings.py. *)
Definition EVERGREEN_TOPICS : list string :=
  ["artificial intelligence basics";
   "cybersecurity tips";
   "programming fundamentals";
   "cloud computing explained";
   "blockchain technology";
   "machine learning concepts";
   "web development best practices";
   "mobile app development";
   "data science fundamentals";
   "internet of things (IoT)";
   "quantum computing basics";
   "5G technology explained";
   "virtual reality and augmented reality";
   "software engineering principles";
   "database management systems"].

(** [generate_topic], lines 24-47.  [draw] is [random.random()], [pick]
    the random source of [random.choice], which takes the element number
    [pick mod len]. *)
Definition generate_topic (draw : Q) (pick : nat) (completion : outcome string)
  : outcome string :=
  if negb (Qle_bool (1 # 2) draw)
  then Ret (nth (pick mod List.length EVERGREEN_TOPICS) EVERGREEN_TOPICS "")
  else content <- completion ;; Ret (PyText.strip content).

(** What [generate_script] returns: the script read by the pipeline and
    the three other keys of the dict. *)
Record GeneratedScript : Type := mkGenerated {
  script             : ScriptData;
  estimated_duration : option string;
  generated_at_      : string;
  model              : string
}.

(** The fallback script of lines 103-110. *)
Definition fallback_script (topic script_text : string)
  : ScriptData * option string :=
  (mkScript (Some topic)
            (Some "Welcome to today's video!")
            (Some (PyStr.take 200 script_text))
            (Some [mkSection (Some "Main Content") (Some script_text)])
            (Some "Thanks for watching!"),
   Some "5-8 minutes").

(** [generate_script], lines 49-116.  [new_topic] is what
    [self.generate_topic()] does; [completion], [json_loads] and [now] as
    in [SEOOptimizerCalls.generate_metadata]; [self_model] is
    [self.model].  The fallback uses [script_text] as the code block
    removal left it. *)
Definition generate_script (new_topic : outcome string)
    (completion : outcome string)
    (json_loads : string -> outcome (ScriptData * option string))
    (now self_model : string) (topic : option string)
  : outcome GeneratedScript :=
  topic <- (if PyText.truthy (get topic "") then Ret (get topic "")
            else new_topic) ;;
  content <- completion ;;
  let script_text := PyText.strip content in
  script_text <- strip_code_fence script_text ;;
  script_data <-
    catch (json_loads script_text)
          (fun e => if is_json_decode_error e
                    then Ret (fallback_script topic script_text)
                    else Raise e) ;;
  Ret (mkGenerated (fst script_data) (snd script_data) now self_model).

End ContentGeneratorCalls.

(* ================================================================== *)
(** ** youtube_uploader.py *)

(** A computation that logs the calls it makes, whatever the calls are. *)
Definition Logged (E A : Type) : Type := (list E * outcome A)%type.

#[export] Instance Logged_monad (E : Type) : PyMonad (Logged E) := {
  ret A a := ([], Ret a);
  bind A B m k :=
    match m with
    | (t, Ret a) => let (t', o) := k a in (t ++ t', o)
    | (t, Raise e) => (t, Raise e)
    end;
  raise A e := ([], Raise e);
  catch A m h :=
    match m with
    | (t, Raise e) => let (t', o) := h e in (t ++ t', o)
    | (t, Ret a) => (t, Ret a)
    end
}.

Module YouTubeUploader.

(** The calls of the uploader on the file system and on the Google
    client library. *)
Inductive api_call : Type :=
| PickleLoad
| CredentialsRefresh
| PickleDump
| Build
| MediaFileUpload
| VideosInsert
| NextChunk
| ThumbnailsSet.

(** What [authenticate] reads of a credentials object. *)
Record credentials : Type := mkCredentials {
  valid         : bool;
  expired       : bool;
  refresh_token : bool
}.

(** What [request.next_chunk()] answers: no response yet, or the response,
    with its ['id'] when it has one. *)
Inductive chunk : Type :=
| Pending
| Done (id : option string).

(** The settings and the answers of the outside world. *)
Record environment : Type := mkEnvironment {
  token_file_exists     : bool;
  pickle_load           : outcome credentials;
  credentials_refresh   : outcome unit;
  YOUTUBE_CLIENT_ID     : option string;
  YOUTUBE_CLIENT_SECRET : option string;
  YOUTUBE_REFRESH_TOKEN : option string;
  pickle_dump           : outcome unit;
  build                 : outcome unit;
  media_file_upload     : outcome unit;
  videos_insert         : outcome unit;
  next_chunk            : list (outcome chunk);
  thumbnail_exists      : bool;
  thumbnails_set        : outcome unit;
  (** [isinstance(e, HttpError)] *)
  is_http_error         : exc -> bool
}.

Definition act {A} (c : api_call) (o : outcome A) : Logged api_call A :=
  ([c], o).

Definition value_error (msg : string) : exc := mkExc "ValueError" msg.

(** [authenticate], lines 32-76; [self_credentials] is [self.credentials]
    on entry. *)
Definition authenticate (env : environment)
    (self_credentials : option credentials) : Logged api_call unit :=
  (* Try to load saved credentials *)
  credentials <-
    (if token_file_exists env
     then c <- act PickleLoad (pickle_load env) ;; ret (Some c)
     else ret self_credentials) ;;
  (* If no valid credentials, authenticate *)
  (if match credentials with Some c => negb (valid c) | None => true end
   then
     (if match credentials with
         | Some c => expired c && refresh_token c
         | None => false
         end
      then act CredentialsRefresh (credentials_refresh env)
      else
        if EmailNotifier.truthy (YOUTUBE_CLIENT_ID env)
           && EmailNotifier.truthy (YOUTUBE_CLIENT_SECRET env)
        then
          if EmailNotifier.truthy (YOUTUBE_REFRESH_TOKEN env)
          then act CredentialsRefresh (credentials_refresh env)
          else raise (value_error
                        "YouTube authentication required. Run setup first.")
        else raise (value_error "YouTube API credentials not configured.")) ;;
     (* Save credentials *)
     act PickleDump (pickle_dump env)
   else ret tt) ;;
  (* Build YouTube service *)
  act Build (build env).

(** [upload_thumbnail], lines 160-177: only an [HttpError] is caught. *)
Definition upload_thumbnail (env : environment) : Logged api_call unit :=
  catch (act ThumbnailsSet (thumbnails_set env))
        (fun e => if is_http_error env e then ret tt else raise e).

(** The loop of lines 122-127 on the answers still to come; [None] when
    the answers run out before a response. *)
Fixpoint upload_chunks (answers : list (outcome chunk))
  : option (Logged api_call (option string)) :=
  match answers with
  | [] => None
  | Raise e :: _ => Some ([NextChunk], Raise e)
  | Ret (Done id) :: _ => Some ([NextChunk], Ret id)
  | Ret Pending :: rest =>
      match upload_chunks rest with
      | Some (t, o) => Some (NextChunk :: t, o)
      | None => None
      end
  end.

Definition error_result (e : exc) : dict :=
  [("status", PStr "error"); ("error", PStr (exc_msg e))].

Definition success_result (video_id : string) (metadata : Metadata) : dict :=
  [("video_id", PStr video_id);
   ("video_url", PStr ("https://www.youtube.com/watch?v=" +++ video_id));
   ("title", match title metadata with Some t => PStr t | None => PNone end);
   ("status", PStr "success")].

(** Lines 129-145, after the loop gave [response]. *)
Definition after_response (env : environment) (response_id : option string)
    (metadata : Metadata) (thumbnail_path : option string)
  : Logged api_call dict :=
  video_id <- match response_id with
              | Some id => ret id
              | None => raise (mkExc "KeyError" "'id'")
              end ;;
  (* Upload thumbnail if provided *)
  (if EmailNotifier.truthy thumbnail_path && thumbnail_exists env
   then upload_thumbnail env
   else ret tt) ;;
  ret (success_result video_id metadata).

(** The [try] statement of [upload_video], lines 111-158: [HttpError] and
    every other exception give the same error result. *)
Definition upload_attempt (env : environment) (metadata : Metadata)
    (thumbnail_path : option string) : option (Logged api_call dict) :=
  match videos_insert env with
  | Raise e => Some ([VideosInsert], Ret (error_result e))
  | Ret _ =>
      match upload_chunks (next_chunk env) with
      | None => None
      | Some (t, Raise e) => Some (VideosInsert :: t, Ret (error_result e))
      | Some (t, Ret response_id) =>
          Some (catch (bind (VideosInsert :: t, Ret tt)
                            (fun _ => after_response env response_id metadata
                                        thumbnail_path))
                      (fun e => ret (error_result e)))
      end
  end.

(** [upload_video], lines 78-158; [self_youtube] tells whether
    [self.youtube] is set on entry. *)
Definition upload_video (env : environment) (self_youtube : bool)
    (self_credentials : option credentials) (video_path : string)
    (metadata : Metadata) (thumbnail_path : option string)
  : option (Logged api_call dict) :=
  match (if self_youtube then ret tt
         else authenticate env self_credentials) ;;
        act MediaFileUpload (media_file_upload env)
  with
  | (t, Raise e) => Some (t, Raise e)
  | (t, Ret _) =>
      match upload_attempt env metadata thumbnail_path with
      | Some (t', o) => Some (t ++ t', o)
      | None => None
      end
  end.

End YouTubeUploader.

(** The write of the results file. *)
Definition is_dump_call (ev : event) : bool :=
  match ev with CallJsonDump _ _ => true | _ => false end.

(** A stage entry that is a dict whose status is not ['error']. *)
Definition not_failed (kv : string * pyval) : Prop :=
  exists d, snd kv = PDict d /\ status_is d "error" = false.

(** No character of [s] is a backquote. *)
Definition no_backquote (s : string) : Prop :=
  forall a b, s <> a +++ String "`" b.

(** The limits [_validate_metadata] enforces. *)
Definition within_limits (m : Metadata) : Prop :=
  String.length (get (title m) "") <= 60 /\
  String.length (get (description m) "") <= 5000 /\
  List.length (get (tags m) []) <= 30 /\
  List.length (get (hashtags m) []) <= 15 /\
  Forall (fun h => PyStr.startswith "#" h = true) (get (hashtags m) []).

(** What the completion call and [json.loads] of the sample runs do. *)
Definition not_json : exc := mkExc "JSONDecodeError" "Expecting value".

(** The words of one line of [_wrap_text]: at least one, and several only
    when they fit in [max_chars] with their spaces. *)
Definition good_group (max_chars : nat) (g : list string) : Prop :=
  g <> [] /\
  Forall (fun w => is_token w = true) g /\
  (String.length (PyStr.join " " g) <= max_chars \/ List.length g = 1).

(** What the loop of [_wrap_text] keeps true: the lines made so far are
    good groups of words, and [current_length] is at least the length of
    the line being made. *)
Definition wrap_invariant (max_chars : nat) (st : ThumbnailCreator.wrapping)
    (groups : list (list string)) : Prop :=
  ThumbnailCreator.lines st = map (PyStr.join " ") groups /\
  Forall (good_group max_chars) groups /\
  Forall (fun w => is_token w = true) (ThumbnailCreator.current_line st) /\
  (ThumbnailCreator.current_line st <> [] ->
   String.length (PyStr.join " " (ThumbnailCreator.current_line st))
     <= ThumbnailCreator.current_length st /\
   (ThumbnailCreator.current_length st <= max_chars \/
    List.length (ThumbnailCreator.current_line st) = 1)).

(** A Google client whose upload answers after two chunks without
    response; [set] is what the thumbnail upload does. *)
Definition sample_uploader (set : outcome unit) : YouTubeUploader.environment :=
  YouTubeUploader.mkEnvironment
    false (Raise (mkExc "FileNotFoundError" "youtube_token.pickle"))
    (Ret tt) (Some "client-id") (Some "client-secret") (Some "refresh-token")
    (Ret tt) (Ret tt) (Ret tt) (Ret tt)
    [Ret YouTubeUploader.Pending; Ret YouTubeUploader.Pending;
     Ret (YouTubeUploader.Done (Some "abc123"))]
    true set
    (fun e => String.eqb (exc_class e) "HttpError").


(** A machine with a saved token that is still valid. *)
Definition uploader_with_token : YouTubeUploader.environment :=
  YouTubeUploader.mkEnvironment
    true (Ret (YouTubeUploader.mkCredentials true false true))
    (Ret tt) None None None
    (Ret tt) (Ret tt) (Ret tt) (Ret tt) [] false (Ret tt)
    (fun e => String.eqb (exc_class e) "HttpError").

(** Collaborators whose success notifier cannot deliver: the SMTP
    connection is refused. *)
Definition notifier_down : Collaborators :=
  Samples.studio Samples.audio_ok (Ret Samples.uploaded)
                 (Raise Samples.smtp_down) (Ret true) (Ret tt).

(** A [json.loads] that reads an empty object and rejects everything
    else. *)
Definition loads_empty_object (text : string) : outcome Metadata :=
  if String.eqb text "{}"
  then Ret (mkMeta None None None None None None None None)
  else Raise not_json.

(* ================================================================== *)
(** * Properties *)

(** ** The stage wrappers *)

Section Wrappers.

Import VideoPipeline.
Variable self : Collaborators.

Lemma generate_content_quiet topic :
  quiet (calls_of (_generate_content self topic)).
Proof.
  unfold quiet, calls_of, _generate_content. cbn.
  destruct (generate_script self topic) as [sd|e]; cbn; [|tauto].
  destruct (save_script self sd); cbn; tauto.
Qed.

Lemma generate_seo_quiet script_data :
  quiet (calls_of (_generate_seo self script_data)).
Proof.
  unfold quiet, calls_of, _generate_seo. cbn.
  destruct (generate_metadata self script_data) as [md|e]; cbn; [|tauto].
  destruct (generate_thumbnail_text self md) as [t|e]; cbn; [|tauto].
  destruct (save_metadata self _); cbn; tauto.
Qed.

Lemma create_thumbnail_calls metadata :
  calls_of (_create_thumbnail self metadata) =
  [CallCreateThumbnail
     (get (thumbnail_text metadata) (get (title metadata) "VIDEO"))
     (thumbnail_subtitle metadata)].
Proof.
  unfold calls_of, _create_thumbnail. cbn -[thumbnail_subtitle].
  destruct (create_thumbnail self _ _); reflexivity.
Qed.

Lemma create_thumbnail_quiet metadata :
  quiet (calls_of (_create_thumbnail self metadata)).
Proof. rewrite create_thumbnail_calls. split; reflexivity. Qed.

Lemma generate_audio_quiet script_data :
  quiet (calls_of (_generate_audio self script_data)).
Proof.
  unfold quiet, calls_of, _generate_audio.
  cbn -[ContentGenerator.format_script_for_tts].
  destruct (create_full_audio self _) as [[ap d]|e]; cbn; tauto.
Qed.

Lemma create_video_quiet audio_path thumbnail_path script_data :
  quiet (calls_of (_create_video self audio_path thumbnail_path script_data)).
Proof.
  unfold quiet, calls_of, _create_video. cbn.
  destruct (create_video self _ _ _); cbn; tauto.
Qed.

(** [_upload_to_youtube] never raises. *)
Lemma upload_to_youtube_spec video_path metadata thumbnail_path :
  _upload_to_youtube self video_path metadata thumbnail_path =
  ([CallUploadVideo video_path metadata thumbnail_path],
   Ret (upload_result_of self video_path metadata thumbnail_path)).
Proof.
  unfold _upload_to_youtube, upload_result_of. cbn.
  destruct (upload_video self _ _ _); reflexivity.
Qed.

(** [_send_notification] never raises, whatever the notifier does. *)
Lemma send_notification_spec upload_result metadata :
  _send_notification self upload_result metadata =
  ([CallSendSuccessNotification upload_result metadata], Ret tt).
Proof.
  unfold _send_notification. cbn.
  destruct (send_success_notification self _ _); reflexivity.
Qed.

Lemma quiet_app (l1 l2 : list event) : quiet l1 -> quiet l2 -> quiet (l1 ++ l2).
Proof.
  unfold quiet. intros [H1 H2] [H3 H4].
  rewrite !existsb_app, H1, H2, H3, H4. split; reflexivity.
Qed.

Lemma save_results_spec (r : dict) (w : world) :
  _save_results self r w =
  (Ret tt,
   mkWorld (results w)
           (trace w ++ [CallJsonDump (clock self (ticks w)) r])
           (files w ++ saved self (clock self (ticks w)) r)
           (S (ticks w))).
Proof.
  unfold _save_results, saved. cbn.
  destruct (json_dump self _ r); cbn; [reflexivity|].
  rewrite app_nil_r. reflexivity.
Qed.

(** The [except] block of [run], entered with the stages recorded so far. *)
Lemma run_except_spec send_email e start_time entries tr n :
  let r := error_record start_time entries (exc_msg e) (clock self n) in
  run_except self send_email e
    (mkWorld [("status", PStr "running"); ("start_time", PIso start_time);
              ("stages", PDict entries)] tr [] n)
  = (Raise e,
     mkWorld r
       (tr ++ error_calls send_email (exc_msg e) entries
           ++ [CallJsonDump (clock self (S n)) r])
       (saved self (clock self (S n)) r)
       (S (S n))).
Proof.
  unfold run_except, error_calls.
  cbn -[_save_results first_error_stage].
  destruct send_email; cbn -[_save_results first_error_stage].
  - destruct (first_error_stage entries) as [stage|e1];
      cbn -[_save_results].
    + destruct (send_error_notification self (exc_msg e) stage);
        cbn -[_save_results]; rewrite save_results_spec; cbn;
        rewrite <- app_assoc; reflexivity.
    + rewrite save_results_spec; cbn. reflexivity.
  - rewrite save_results_spec; cbn. reflexivity.
Qed.

End Wrappers.

(** ** The two ways [run] ends *)

Section Paths.

Import VideoPipeline.
Variable self : Collaborators.
Variable topic : option string.

Ltac run_step :=
  cbn -[_generate_content _generate_seo _create_thumbnail _generate_audio
        _create_video _upload_to_youtube _send_notification run_except
        _save_results total_seconds status_is].

Ltac enter_run :=
  unfold execute, run, run_try; run_step.

Ltac stage_returns H := rewrite H; run_step.

Ltac saving :=
  rewrite save_results_spec; cbn [results trace files ticks].

Ltac stage_raises H := rewrite H; run_step; rewrite run_except_spec.

Ltac known_stages :=
  unfold recorded_entries, production_calls, result_of, calls_of in *;
  repeat match goal with
         | H : snd _ = _ |- _ => rewrite H; clear H
         end;
  rewrite ?app_nil_r, <- ?app_assoc.

Lemma first_error_stage_success entries :
  all_success entries -> first_error_stage entries = Ret "Unknown".
Proof.
  induction 1 as [|[name v] rest [d [Hv Hd]] _ IH]; [reflexivity|].
  cbn in Hv. subst v. cbn [first_error_stage].
  replace (status_is d "error") with false; [exact IH|].
  unfold status_is in *.
  destruct (dict_get "status" d) as [[| s | | | | |]|]; try discriminate.
  apply String.eqb_eq in Hd. subst s. reflexivity.
Qed.

Lemma recorded_all_success : all_success (recorded_entries self topic).
Proof.
  unfold recorded_entries, all_success.
  repeat match goal with
         | |- Forall _ (match ?o with _ => _ end) => destruct o as [?|?]
         | |- Forall _ (match ?p with (_, _) => _ end) => destruct p
         | |- Forall _ [] => constructor
         | |- Forall _ (_ :: _) =>
             constructor; [cbn; eexists; split; reflexivity|]
         end.
Qed.

Lemma production_calls_quiet : quiet (production_calls self topic).
Proof.
  unfold production_calls.
  repeat match goal with
         | |- quiet (_ ++ _) => apply quiet_app
         | |- quiet (match ?o with _ => _ end) => destruct o as [?|?]
         | |- quiet (match ?p with (_, _) => _ end) => destruct p
         | |- quiet [] => split; reflexivity
         end;
    auto using generate_content_quiet, generate_seo_quiet,
      create_thumbnail_quiet, generate_audio_quiet, create_video_quiet.
Qed.

Lemma recorded_names k e :
  raises_at self topic k e ->
  map fst (recorded_entries self topic) = firstn (k - 1) fail_fast_stages.
Proof. destruct 1; known_stages; reflexivity. Qed.

Lemma raises_at_range k e : raises_at self topic k e -> 1 <= k <= 5.
Proof. destruct 1; lia. Qed.

(** A run in which stage [k] raises [e] ends in the [except] block. *)
Lemma execute_error upload send_email k e :
  raises_at self topic k e ->
  let entries := recorded_entries self topic in
  let r := error_record (clock self 0) entries (exc_msg e) (clock self 1) in
  execute self topic upload send_email =
    (Raise e,
     mkWorld r
       (production_calls self topic
          ++ error_calls send_email (exc_msg e) entries
          ++ [CallJsonDump (clock self 2) r])
       (saved self (clock self 2) r) 3).
Proof.
  destruct 1 as [e H1 | sd e H1 H2 | sd md e H1 H2 H3
                | sd md tp e H1 H2 H3 H4 | sd md tp ap d e H1 H2 H3 H4 H5];
    cbv zeta; unfold result_of in *; enter_run.
  - stage_raises H1. known_stages. reflexivity.
  - stage_returns H1. stage_raises H2. known_stages. reflexivity.
  - stage_returns H1. stage_returns H2. stage_raises H3.
    known_stages. reflexivity.
  - stage_returns H1. stage_returns H2. stage_returns H3. stage_raises H4.
    known_stages. reflexivity.
  - stage_returns H1. stage_returns H2. stage_returns H3. stage_returns H4.
    stage_raises H5. known_stages. reflexivity.
Qed.

(** A run in which stages 1-5 return ends in the [try] block. *)
Lemma execute_success upload send_email sd md tp ap d vp :
  stages_succeed self topic sd md tp ap d vp ->
  let upload_result := upload_result_of self vp md tp in
  let r := success_record (clock self 0)
             (recorded_entries self topic
                ++ publish_entries upload send_email upload_result)
             (clock self 1) in
  execute self topic upload send_email =
    (Ret r,
     mkWorld r
       (production_calls self topic
          ++ publish_calls upload send_email vp md tp upload_result
          ++ [CallJsonDump (clock self 2) r])
       (saved self (clock self 2) r) 3).
Proof.
  intros (H1 & H2 & H3 & H4 & H5).
  cbv zeta; unfold result_of in *; enter_run.
  stage_returns H1. stage_returns H2. stage_returns H3.
  stage_returns H4. stage_returns H5.
  unfold publish_entries, publish_calls.
  destruct upload; run_step.
  - rewrite upload_to_youtube_spec. run_step.
    destruct (send_email && status_is (upload_result_of self vp md tp) "success");
      run_step.
    + rewrite send_notification_spec. run_step.
      saving. known_stages. reflexivity.
    + saving. known_stages. reflexivity.
  - saving. known_stages. reflexivity.
Qed.

(** Stages 1-5 never write the entries of stages 6 and 7. *)
Lemma recorded_no_publish :
  dict_get "youtube_upload" (recorded_entries self topic) = None /\
  dict_get "email_notification" (recorded_entries self topic) = None.
Proof.
  unfold recorded_entries.
  repeat match goal with
         | |- context [match ?o with Ret _ => _ | Raise _ => _ end] =>
             destruct o as [?|?]
         | |- context [match ?p with (_, _) => _ end] => destruct p
         end; split; reflexivity.
Qed.

(** Every run goes one of the two ways. *)
Lemma run_cases :
  (exists k e, raises_at self topic k e) \/
  (exists sd md tp ap d vp, stages_succeed self topic sd md tp ap d vp).
Proof.
  destruct (result_of (_generate_content self topic)) as [sd|e] eqn:H1;
    [|left; exists 1, e; now constructor].
  destruct (result_of (_generate_seo self sd)) as [md|e] eqn:H2;
    [|left; exists 2, e; econstructor; eassumption].
  destruct (result_of (_create_thumbnail self md)) as [tp|e] eqn:H3;
    [|left; exists 3, e; econstructor; eassumption].
  destruct (result_of (_generate_audio self sd)) as [[ap d]|e] eqn:H4;
    [|left; exists 4, e; econstructor; eassumption].
  destruct (result_of (_create_video self ap tp sd)) as [vp|e] eqn:H5;
    [|left; exists 5, e; econstructor; eassumption].
  right. exists sd, md, tp, ap, d, vp. repeat split; assumption.
Qed.

End Paths.

(** ** Reading records *)

Lemma dict_get_app (key : string) (d1 d2 : dict) :
  dict_get key (d1 ++ d2) =
  match dict_get key d1 with
  | Some v => Some v
  | None => dict_get key d2
  end.
Proof.
  induction d1 as [|[k v] d1 IH]; cbn; [reflexivity|].
  destruct (String.eqb k key); [reflexivity|exact IH].
Qed.

Lemma existsb_quiet_error (pre rest : list event) :
  quiet pre ->
  existsb is_error_call (pre ++ rest) = existsb is_error_call rest.
Proof. intros [H _]. rewrite existsb_app, H. reflexivity. Qed.

Lemma existsb_quiet_success (pre rest : list event) :
  quiet pre ->
  existsb is_success_call (pre ++ rest) = existsb is_success_call rest.
Proof. intros [_ H]. rewrite existsb_app, H. reflexivity. Qed.

Lemma sample_stages_succeed audio_path duration upload mail_success
    mail_error dump topic :
  stages_succeed
    (Samples.studio (Ret (audio_path, duration)) upload mail_success
                    mail_error dump)
    topic Samples.script sample_metadata "output/thumbnail.png"
    audio_path duration "output/video.mp4".
Proof. repeat split. Defined.

(** ** Publishing *)

Section Publishing.

Variable self : Collaborators.
Variable topic : option string.

(** C7.  When stages 1-5 succeed and [upload] is false, [run] returns
    a record whose [youtube_upload] entry is [{'status': 'skipped'}],
    that has no [email_notification] entry and whose status is
    ['success']; the success notification is never called. *)
Theorem skipped_upload_run (send_email : bool) sd md tp ap d vp :
  stages_succeed self topic sd md tp ap d vp ->
  exists r w,
    execute self topic false send_email = (Ret r, w) /\
    results w = r /\
    stage_entry "youtube_upload" r = Some (PDict [("status", PStr "skipped")]) /\
    stage_entry "email_notification" r = None /\
    existsb is_success_call (trace w) = false /\
    status_is r "success" = true.
Proof.
  intros Hs.
  pose proof (execute_success false send_email Hs) as E. cbv zeta in E.
  destruct (recorded_no_publish self topic) as [Hu Hn].
  eexists _, _. split; [exact E|].
  unfold stage_entry. cbn [results trace stages_of success_record dict_get
                           String.eqb Ascii.eqb Bool.eqb publish_entries
                           publish_calls].
  rewrite !dict_get_app, Hu, Hn.
  rewrite existsb_quiet_success by apply production_calls_quiet.
  repeat split; reflexivity.
Qed.

(** C1, as the code has it.  When stages 1-5 succeed, [upload] is true
    and the upload result's status is not ['success'], [run] returns
    (no exception) a record whose status is ['success'] and that has no
    [error] key; the failed upload result is the [youtube_upload] entry,
    there is no [email_notification] entry and the success notification
    is never called. *)
Theorem failed_upload_run (send_email : bool) sd md tp ap d vp upload_result :
  stages_succeed self topic sd md tp ap d vp ->
  result_of (VideoPipeline._upload_to_youtube self vp md tp) = Ret upload_result ->
  status_is upload_result "success" = false ->
  exists r w,
    execute self topic true send_email = (Ret r, w) /\
    results w = r /\
    status_is r "success" = true /\
    has_key "error" r = false /\
    stage_entry "youtube_upload" r = Some (PDict upload_result) /\
    stage_entry "email_notification" r = None /\
    existsb is_success_call (trace w) = false.
Proof.
  intros Hs Hu Hfail.
  rewrite upload_to_youtube_spec in Hu. cbn in Hu.
  injection Hu as Hu.
  pose proof (execute_success true send_email Hs) as E. cbv zeta in E.
  rewrite Hu in E.
  destruct (recorded_no_publish self topic) as [Hy Hn].
  eexists _, _. split; [exact E|].
  unfold stage_entry, publish_entries, publish_calls.
  rewrite Hfail, andb_false_r.
  cbn [results trace stages_of success_record dict_get
       String.eqb Ascii.eqb Bool.eqb].
  rewrite !dict_get_app, Hy, Hn.
  rewrite existsb_quiet_success by apply production_calls_quiet.
  repeat split; reflexivity.
Qed.

End Publishing.

Lemma skipped_upload_run_witness :
  stages_succeed Samples.happy None Samples.script sample_metadata
    "output/thumbnail.png" "output/audio.mp3" (42 # 1)%Q "output/video.mp4" /\
  exists r w,
    execute Samples.happy None false true = (Ret r, w) /\
    results w = r /\
    stage_entry "youtube_upload" r = Some (PDict [("status", PStr "skipped")]) /\
    stage_entry "email_notification" r = None /\
    existsb is_success_call (trace w) = false /\
    status_is r "success" = true.
Proof.
  split; [apply sample_stages_succeed|].
  apply (@skipped_upload_run Samples.happy None true Samples.script
           sample_metadata "output/thumbnail.png" "output/audio.mp3"
           (42 # 1)%Q "output/video.mp4").
  apply sample_stages_succeed.
Defined.

Lemma failed_upload_run_witness :
  exists r w,
    execute rejecting_uploader None true true = (Ret r, w) /\
    results w = r /\
    status_is r "success" = true /\
    has_key "error" r = false /\
    stage_entry "youtube_upload" r = Some (PDict Samples.upload_rejected) /\
    stage_entry "email_notification" r = None /\
    existsb is_success_call (trace w) = false.
Proof.
  apply (@failed_upload_run rejecting_uploader None true Samples.script
           sample_metadata "output/thumbnail.png" "output/audio.mp3"
           (42 # 1)%Q "output/video.mp4" Samples.upload_rejected).
  - apply sample_stages_succeed.
  - reflexivity.
  - reflexivity.
Defined.

(** C1, as the specification states it, fails: with an uploader that
    answers [{'status': 'error', 'error': 'quotaExceeded'}] the returned
    record does not have status ['error'] with that message. *)
Lemma failed_upload_is_not_a_run_error :
  ~ (forall (self : Collaborators) (topic : option string) (send_email : bool)
            sd md tp ap d vp upload_result msg,
       stages_succeed self topic sd md tp ap d vp ->
       upload_video self vp md tp = Ret upload_result ->
       status_is upload_result "success" = false ->
       dict_get "error" upload_result = Some (PStr msg) ->
       exists r w,
         execute self topic true send_email = (Ret r, w) /\
         status_is r "error" = true /\
         dict_get "error" r = Some (PStr msg) /\
         stage_entry "email_notification" r = None).
Proof.
  intros claim.
  destruct (claim rejecting_uploader None true Samples.script
              sample_metadata "output/thumbnail.png" "output/audio.mp3"
              (42 # 1)%Q "output/video.mp4" Samples.upload_rejected
              "quotaExceeded")
    as (r & w & E & Hstatus & _);
    try reflexivity; [apply sample_stages_succeed|].
  vm_compute in E. injection E as <- _.
  vm_compute in Hstatus. discriminate.
Qed.

(** ** Fail-fast stages *)

Section FailFast.

Variable self : Collaborators.
Variable topic : option string.

(** C2, as the code has it.  When stage [k] (1 <= k <= 5) raises [e]:
    no stage after [k] has an entry; the record has status ['error'] and
    [error = str(e)]; [run] raises [e] itself, after it has called the
    error notifier with [str(e)] when [send_email] is true (no notifier
    call when it is false) and, after that, has handed the record to
    [json.dump]; the file exists when that write returns. *)
Theorem fail_fast_run (upload send_email : bool) (k : nat) (e : exc) :
  raises_at self topic k e ->
  exists w pre notified ts,
    execute self topic upload send_email = (Raise e, w) /\
    1 <= k <= 5 /\
    (forall name, In name (skipn k all_stage_names) ->
                  stage_entry name (results w) = None) /\
    status_is (results w) "error" = true /\
    dict_get "error" (results w) = Some (PStr (exc_msg e)) /\
    trace w = pre ++ notified ++ [CallJsonDump ts (results w)] /\
    existsb is_error_call pre = false /\
    (send_email = true ->
     exists stage, notified = [CallSendErrorNotification (exc_msg e) stage]) /\
    (send_email = false -> notified = []) /\
    files w = saved self ts (results w).
Proof.
  intros Hk.
  pose proof (execute_error upload send_email Hk) as E. cbv zeta in E.
  pose proof (recorded_names Hk) as Hnames.
  pose proof (raises_at_range Hk) as Hrange.
  pose proof (first_error_stage_success (recorded_all_success self topic))
    as Hstage.
  eexists _, (production_calls self topic),
    (error_calls send_email (exc_msg e) (recorded_entries self topic)), _.
  split; [exact E|].
  cbn [results trace files].
  repeat split; try reflexivity; try lia.
  - intros name Hin. unfold stage_entry.
    cbn [stages_of error_record dict_get String.eqb Ascii.eqb Bool.eqb].
    destruct (dict_get name (recorded_entries self topic)) as [v|] eqn:Hget;
      [exfalso|reflexivity].
    assert (Hmem : In name (map fst (recorded_entries self topic))).
    { clear - Hget. induction (recorded_entries self topic) as [|[k0 v0] l IH];
        cbn in *; [discriminate|].
      destruct (String.eqb k0 name) eqn:Hk0; [left; now apply String.eqb_eq|].
      right; auto. }
    rewrite Hnames in Hmem.
    assert (k = 1 \/ k = 2 \/ k = 3 \/ k = 4 \/ k = 5) as Hcase by lia.
    destruct Hcase as [-> | [-> | [-> | [-> | ->]]]];
      cbn in Hin, Hmem;
      repeat match goal with
             | H : _ \/ _ |- _ => destruct H
             | H : False |- _ => destruct H
             end; subst; discriminate.
  - apply production_calls_quiet.
  - intros ->. unfold error_calls. rewrite Hstage. eexists. reflexivity.
  - intros ->. reflexivity.
Qed.

(** C8.  A run that ends with status ['error'] while [send_email] is
    true raises the exception of the stage that failed; and with any
    other error notifier - one that delivers, one that answers [False],
    one that raises - [run] calls it, raises that same exception and
    leaves the same record and the same files. *)
Theorem error_notification_is_swallowed (upload : bool) o w :
  execute self topic upload true = (o, w) ->
  status_is (results w) "error" = true ->
  exists k e,
    raises_at self topic k e /\ o = Raise e /\
    forall notifier,
    exists w',
      execute (with_error_notifier self notifier) topic upload true
        = (Raise e, w') /\
      existsb is_error_call (trace w') = true /\
      results w' = results w /\
      files w' = files w.
Proof.
  intros E Hstatus.
  destruct (run_cases self topic) as [(k & e & Hk) | (sd & md & tp & ap & d & vp & Hs)].
  - rewrite (execute_error upload true Hk) in E. cbv zeta in E.
    injection E as <- <-.
    exists k, e. split; [exact Hk|]. split; [reflexivity|].
    intros notifier.
    assert (Hk' : raises_at (with_error_notifier self notifier) topic k e).
    { destruct Hk; econstructor; eassumption. }
    eexists. split; [exact (execute_error upload true Hk')|].
    cbn [results trace files]. split; [|split; reflexivity].
    rewrite existsb_quiet_error by apply production_calls_quiet.
    unfold error_calls.
    rewrite (first_error_stage_success
               (recorded_all_success (with_error_notifier self notifier) topic)).
    reflexivity.
  - rewrite (execute_success upload true Hs) in E. cbv zeta in E.
    injection E as <- <-. cbn in Hstatus. discriminate.
Qed.

End FailFast.

(** [EmailNotifier.send_error_notification] itself never raises: a
    session that fails makes it answer [False]. *)
Lemma email_notifier_answers_false settings session error_message stage e :
  session error_message stage = Raise e ->
  send_error_notification
    (with_email_notifier Samples.happy settings session) error_message stage
  = Ret false.
Proof.
  intros H. cbn. unfold EmailNotifier.send_error_notification,
    EmailNotifier._send_email.
  rewrite H. now destruct (negb _).
Qed.

Lemma failing_audio_raises_at dump :
  raises_at
    (Samples.studio (Raise (Samples.render_error "disk full"))
                    (Ret Samples.uploaded) (Ret true) (Ret true) dump)
    None 4 (Samples.render_error "disk full").
Proof.
  apply raises_at_4 with Samples.script sample_metadata "output/thumbnail.png";
    reflexivity.
Defined.

Lemma fail_fast_run_witness :
  raises_at failing_audio None 4 (Samples.render_error "disk full") /\
  exists w pre notified ts,
    execute failing_audio None true true
      = (Raise (Samples.render_error "disk full"), w) /\
    1 <= 4 <= 5 /\
    (forall name, In name (skipn 4 all_stage_names) ->
                  stage_entry name (results w) = None) /\
    status_is (results w) "error" = true /\
    dict_get "error" (results w) = Some (PStr "disk full") /\
    trace w = pre ++ notified ++ [CallJsonDump ts (results w)] /\
    existsb is_error_call pre = false /\
    (true = true ->
     exists stage, notified = [CallSendErrorNotification "disk full" stage]) /\
    (true = false -> notified = []) /\
    files w = saved failing_audio ts (results w).
Proof.
  split; [apply failing_audio_raises_at|].
  apply (@fail_fast_run failing_audio None true true 4
           (Samples.render_error "disk full")).
  apply failing_audio_raises_at.
Defined.

(** C2, as the specification states it, fails: with [send_email] false
    and a results file that cannot be written, the audio stage's
    exception is re-raised although no record was persisted and no error
    notification was attempted. *)
Lemma reraise_without_record_or_notification :
  ~ (forall (self : Collaborators) (topic : option string)
            (upload send_email : bool) (k : nat) (e : exc),
       raises_at self topic k e ->
       exists w,
         execute self topic upload send_email = (Raise e, w) /\
         (exists ts, In (ts, results w) (files w)) /\
         existsb is_error_call (trace w) = true).
Proof.
  intros claim.
  destruct (claim failing_audio_full_disk None true false 4
              (Samples.render_error "disk full")
              (failing_audio_raises_at (Raise Samples.disk_error)))
    as (w & E & _ & Hcall).
  vm_compute in E. injection E as <-.
  vm_compute in Hcall. discriminate.
Qed.

Lemma error_notification_is_swallowed_witness :
  exists k e,
    raises_at failing_audio None k e /\
    fst (execute failing_audio None true true) = Raise e /\
    forall notifier,
    exists w',
      execute (with_error_notifier failing_audio notifier) None true true
        = (Raise e, w') /\
      existsb is_error_call (trace w') = true /\
      results w' = results (snd (execute failing_audio None true true)) /\
      files w' = files (snd (execute failing_audio None true true)).
Proof.
  apply (@error_notification_is_swallowed failing_audio None true
           (fst (execute failing_audio None true true))
           (snd (execute failing_audio None true true))).
  - vm_compute. reflexivity.
  - vm_compute. reflexivity.
Defined.

(** C3 on the code.  When the audio renderer raises
    [RenderError("disk full")] after stages 1-3 succeeded, [run]
    re-raises it with status ['error'] and [error = "disk full"], but
    the record has three stage entries, none for [audio_production], and
    the one call to the error notifier names the stage ['Unknown']. *)
Theorem audio_failure_is_attributed_to_unknown :
  exists w,
    execute failing_audio None true true
      = (Raise (Samples.render_error "disk full"), w) /\
    status_is (results w) "error" = true /\
    dict_get "error" (results w) = Some (PStr "disk full") /\
    stage_names (results w)
      = ["content_generation"; "seo_optimization"; "thumbnail_creation"] /\
    stage_entry "audio_production" (results w) = None /\
    VideoPipeline._get_failed_stage (results w) = Ret "Unknown" /\
    filter is_error_call (trace w)
      = [CallSendErrorNotification "disk full" "Unknown"].
Proof.
  eexists. split; [vm_compute; reflexivity|].
  repeat split; reflexivity.
Qed.

(** Whatever stage raises, [_get_failed_stage] finds no entry with status
    ['error'] in the record and answers ['Unknown']. *)
Lemma failed_stage_is_never_found self topic upload send_email k e :
  raises_at self topic k e ->
  VideoPipeline._get_failed_stage
    (results (snd (execute self topic upload send_email))) = Ret "Unknown".
Proof.
  intros Hk. rewrite (execute_error upload send_email Hk). cbv zeta.
  cbn [snd results]. unfold VideoPipeline._get_failed_stage.
  cbn [error_record dict_get String.eqb Ascii.eqb Bool.eqb].
  apply first_error_stage_success, recorded_all_success.
Qed.

(** ** The notification entry and the persisted record *)

Section Records.

Variable self : Collaborators.
Variable topic : option string.

(** C9.  In every run, an [email_notification] entry, when there is
    one, is [{'status': 'success'}]; the record (the one returned and
    the one written) is the same whatever the success notifier does:
    deliver, answer [False] or raise; and when stages 1-5 succeed, [upload]
    and [send_email] are true and the upload result has status
    ['success'], the notifier is called and the entry is there with
    status ['success'], whatever the notifier did. *)
Theorem notification_entry_is_success (upload send_email : bool) o w :
  execute self topic upload send_email = (o, w) ->
  (forall entry,
     stage_entry "email_notification" (results w) = Some entry ->
     entry = PDict [("status", PStr "success")]) /\
  (forall r, o = Ret r -> r = results w) /\
  (forall ts r, In (ts, r) (files w) -> r = results w) /\
  (forall notifier o' w',
     execute (with_success_notifier self notifier) topic upload send_email
       = (o', w') ->
     o' = o /\ results w' = results w /\ files w' = files w) /\
  (forall sd md tp ap d vp upload_result,
     stages_succeed self topic sd md tp ap d vp ->
     upload = true -> send_email = true ->
     result_of (VideoPipeline._upload_to_youtube self vp md tp)
       = Ret upload_result ->
     status_is upload_result "success" = true ->
     o = Ret (results w) /\
     In (CallSendSuccessNotification upload_result md) (trace w) /\
     stage_entry "email_notification" (results w)
       = Some (PDict [("status", PStr "success")])).
Proof.
  intros E.
  assert (Hany :
    (forall entry,
       stage_entry "email_notification" (results w) = Some entry ->
       entry = PDict [("status", PStr "success")]) /\
    (forall r, o = Ret r -> r = results w) /\
    (forall ts r, In (ts, r) (files w) -> r = results w) /\
    (forall notifier o' w',
       execute (with_success_notifier self notifier) topic upload send_email
         = (o', w') ->
       o' = o /\ results w' = results w /\ files w' = files w)).
  { pose proof E as E0.
    destruct (run_cases self topic) as [(k & e & Hk) | (sd & md & tp & ap & d & vp & Hs)].
    - rewrite (execute_error upload send_email Hk) in E0. cbv zeta in E0.
      injection E0 as <- <-. cbn [results files].
      split; [|split; [|split]].
      + intros entry. unfold stage_entry.
        cbn [stages_of error_record dict_get String.eqb Ascii.eqb Bool.eqb].
        destruct (recorded_no_publish self topic) as [_ ->]. discriminate.
      + discriminate.
      + intros ts r. unfold saved.
        destruct (json_dump self _ _); cbn; [|tauto].
        intros [[= _ <-]|[]]. reflexivity.
      + intros notifier o' w' E'.
        assert (Hk' : raises_at (with_success_notifier self notifier) topic k e).
        { destruct Hk; econstructor; eassumption. }
        rewrite (execute_error upload send_email Hk') in E'. cbv zeta in E'.
        injection E' as <- <-. repeat split; reflexivity.
    - rewrite (execute_success upload send_email Hs) in E0. cbv zeta in E0.
      injection E0 as <- <-. cbn [results files].
      split; [|split; [|split]].
      + intros entry. unfold stage_entry.
        cbn [stages_of success_record dict_get String.eqb Ascii.eqb Bool.eqb].
        rewrite dict_get_app.
        destruct (recorded_no_publish self topic) as [_ ->].
        unfold publish_entries.
        destruct upload; [|cbn; discriminate].
        destruct (send_email && status_is _ "success"); cbn; [|discriminate].
        intros [= <-]. reflexivity.
      + intros r [= <-]. reflexivity.
      + intros ts r. unfold saved.
        destruct (json_dump self _ _); cbn; [|tauto].
        intros [[= _ <-]|[]]. reflexivity.
      + intros notifier o' w' E'.
        assert (Hs' : stages_succeed (with_success_notifier self notifier)
                        topic sd md tp ap d vp) by exact Hs.
        rewrite (execute_success upload send_email Hs') in E'. cbv zeta in E'.
        injection E' as <- <-. repeat split; reflexivity.
  }
  destruct Hany as (H1 & H2 & H3 & H4).
  repeat (split; [assumption|]).
  intros sd md tp ap d vp upload_result Hs Hupload Hemail Hu Hok.
  subst upload send_email.
  rewrite upload_to_youtube_spec in Hu. cbn in Hu. injection Hu as Hu.
  rewrite (execute_success true true Hs) in E. cbv zeta in E.
  rewrite Hu in E. injection E as <- <-.
  cbn [results trace]. unfold publish_entries, publish_calls, stage_entry.
  rewrite Hok. cbn [andb].
  split; [reflexivity|]. split.
  - apply in_or_app. right. cbn [app In]. right. left. reflexivity.
  - cbn [stages_of success_record dict_get String.eqb Ascii.eqb Bool.eqb].
    rewrite dict_get_app.
    destruct (recorded_no_publish self topic) as [_ ->]. reflexivity.
Qed.

(** C10.  Every run, returning or raising, hands its final [results]
    to the write of the results file, and this record is the file when
    the write returns.  When [run] returns, the record has status
    ['success'], [end_time] and [duration_seconds]; when it raises, the
    record has status ['error'], [end_time] and no [duration_seconds]. *)
Theorem persisted_record_fields (upload send_email : bool) o w :
  execute self topic upload send_email = (o, w) ->
  exists timestamp,
    In (CallJsonDump timestamp (results w)) (trace w) /\
    (json_dump self timestamp (results w) = Ret tt ->
     files w = [(timestamp, results w)]) /\
    (forall ts r, In (ts, r) (files w) -> ts = timestamp /\ r = results w) /\
    match o with
    | Ret returned =>
        returned = results w /\
        status_is (results w) "success" = true /\
        has_key "end_time" (results w) = true /\
        has_key "duration_seconds" (results w) = true
    | Raise e =>
        status_is (results w) "error" = true /\
        has_key "end_time" (results w) = true /\
        has_key "duration_seconds" (results w) = false
    end /\
    (status_is (results w) "success" = true \/
     status_is (results w) "error" = true) /\
    (status_is (results w) "success" = true ->
     has_key "end_time" (results w) = true /\
     has_key "duration_seconds" (results w) = true) /\
    (status_is (results w) "error" = true ->
     has_key "end_time" (results w) = true /\
     has_key "duration_seconds" (results w) = false).
Proof.
  intros E.
  destruct (run_cases self topic) as [(k & e & Hk) | (sd & md & tp & ap & d & vp & Hs)].
  - rewrite (execute_error upload send_email Hk) in E. cbv zeta in E.
    injection E as <- <-. cbn [results files trace].
    exists (clock self 2). split; [|split; [|split; [|split; [|split; [|split]]]]].
    + apply in_or_app. right. apply in_or_app. right. left. reflexivity.
    + unfold saved. now intros ->.
    + intros ts r. unfold saved.
      destruct (json_dump self _ _); cbn; [|tauto].
      intros [[= <- <-]|[]]. now split.
    + repeat split.
    + right. reflexivity.
    + discriminate.
    + intros _. split; reflexivity.
  - rewrite (execute_success upload send_email Hs) in E. cbv zeta in E.
    injection E as <- <-. cbn [results files trace].
    exists (clock self 2). split; [|split; [|split; [|split; [|split; [|split]]]]].
    + apply in_or_app. right. apply in_or_app. right. left. reflexivity.
    + unfold saved. now intros ->.
    + intros ts r. unfold saved.
      destruct (json_dump self _ _); cbn; [|tauto].
      intros [[= <- <-]|[]]. now split.
    + repeat split.
    + left. reflexivity.
    + intros _. split; reflexivity.
    + discriminate.
Qed.

(** The record is written exactly once when [json.dump] returns. *)
Lemma record_is_written (upload send_email : bool) :
  (forall ts r, json_dump self ts r = Ret tt) ->
  exists ts,
    files (snd (execute self topic upload send_email))
    = [(ts, results (snd (execute self topic upload send_email)))].
Proof.
  intros Hdump.
  destruct (run_cases self topic) as [(k & e & Hk) | (sd & md & tp & ap & d & vp & Hs)].
  - rewrite (execute_error upload send_email Hk). cbv zeta.
    cbn [snd results files]. unfold saved. rewrite Hdump.
    eexists. reflexivity.
  - rewrite (execute_success upload send_email Hs). cbv zeta.
    cbn [snd results files]. unfold saved. rewrite Hdump.
    eexists. reflexivity.
Qed.

End Records.

Lemma notification_entry_is_success_witness :
  let w := snd (execute notifier_down None true true) in
  send_success_notification notifier_down Samples.uploaded sample_metadata
    = Raise Samples.smtp_down /\
  fst (execute notifier_down None true true) = Ret (results w) /\
  In (CallSendSuccessNotification Samples.uploaded sample_metadata) (trace w) /\
  stage_entry "email_notification" (results w)
    = Some (PDict [("status", PStr "success")]).
Proof.
  split; [reflexivity|].
  destruct (@notification_entry_is_success notifier_down None true true
              (fst (execute notifier_down None true true))
              (snd (execute notifier_down None true true)))
    as (_ & _ & _ & _ & Hpresent); [vm_compute; reflexivity|].
  apply (Hpresent Samples.script sample_metadata "output/thumbnail.png"
           "output/audio.mp3" (42 # 1)%Q "output/video.mp4" Samples.uploaded).
  - apply sample_stages_succeed.
  - reflexivity.
  - reflexivity.
  - reflexivity.
  - reflexivity.
Defined.

(** The entry says ['success'] even when the notifier could not deliver:
    here the SMTP connection is refused. *)
Lemma undelivered_notification_is_recorded_as_success :
  let self := Samples.studio Samples.audio_ok (Ret Samples.uploaded)
                (Raise Samples.smtp_down) (Ret true) (Ret tt) in
  exists r w,
    execute self None true true = (Ret r, w) /\
    stage_entry "email_notification" r = Some (PDict [("status", PStr "success")]) /\
    status_is r "success" = true.
Proof. eexists _, _. split; [vm_compute; reflexivity|]. split; reflexivity. Qed.

Lemma persisted_record_fields_witness :
  (let w := snd (execute failing_audio None true true) in
   exists timestamp,
     fst (execute failing_audio None true true)
       = Raise (Samples.render_error "disk full") /\
     files w = [(timestamp, results w)] /\
     status_is (results w) "error" = true /\
     has_key "end_time" (results w) = true /\
     has_key "duration_seconds" (results w) = false) /\
  (let w := snd (execute Samples.happy None true true) in
   exists timestamp,
     fst (execute Samples.happy None true true) = Ret (results w) /\
     files w = [(timestamp, results w)] /\
     status_is (results w) "success" = true /\
     has_key "end_time" (results w) = true /\
     has_key "duration_seconds" (results w) = true).
Proof.
  split.
  - destruct (@persisted_record_fields failing_audio None true true
                (Raise (Samples.render_error "disk full"))
                (snd (execute failing_audio None true true)))
      as (timestamp & _ & Hfile & _ & (Hstatus & Hend & Hduration) & _);
      [vm_compute; reflexivity|].
    exists timestamp. split; [vm_compute; reflexivity|].
    split; [apply Hfile; reflexivity|].
    split; [exact Hstatus|]. split; [exact Hend|exact Hduration].
  - destruct (@persisted_record_fields Samples.happy None true true
                (Ret (results (snd (execute Samples.happy None true true))))
                (snd (execute Samples.happy None true true)))
      as (timestamp & _ & Hfile & _ & (_ & Hstatus & Hend & Hduration) & _);
      [vm_compute; reflexivity|].
    exists timestamp. split; [vm_compute; reflexivity|].
    split; [apply Hfile; reflexivity|].
    split; [exact Hstatus|]. split; [exact Hend|exact Hduration].
Defined.

(** ** Strings *)

Section StringFacts.

Lemma length_append (a b : string) :
  String.length (a +++ b) = String.length a + String.length b.
Proof. induction a as [|c a IH]; cbn; [reflexivity|]. now rewrite IH. Qed.

Lemma append_assoc (a b c : string) : (a +++ b) +++ c = a +++ b +++ c.
Proof. induction a as [|x a IH]; cbn; [reflexivity|]. now rewrite IH. Qed.

Lemma append_empty_r (a : string) : a +++ EmptyString = a.
Proof. induction a as [|x a IH]; cbn; [reflexivity|]. now rewrite IH. Qed.

Lemma length_take (n : nat) (s : string) :
  String.length (PyStr.take n s) = Nat.min n (String.length s).
Proof.
  revert s. induction n as [|n IH]; intros [|c s]; cbn; try reflexivity.
  now rewrite IH.
Qed.

Lemma join_cons (sep x y : string) (l : list string) :
  PyStr.join sep (x :: y :: l) = x +++ sep +++ PyStr.join sep (y :: l).
Proof. reflexivity. Qed.

Lemma length_join (sep : string) (x : string) (l : list string) :
  String.length (PyStr.join sep (x :: l))
  = total_length (x :: l) + List.length l * String.length sep.
Proof.
  revert x. induction l as [|y l IH]; intros x.
  - cbn. lia.
  - rewrite join_cons, !length_append, IH.
    unfold total_length. cbn. lia.
Qed.

Lemma total_length_filter (parts : list string) :
  total_length (filter PyStr.nonempty parts) = total_length parts.
Proof.
  unfold total_length.
  induction parts as [|x l IH]; [reflexivity|].
  destruct x; cbn [filter PyStr.nonempty map]; [exact IH|].
  change (String.length (String a x) + list_sum (map String.length (filter PyStr.nonempty l))
          = String.length (String a x) + list_sum (map String.length l)).
  rewrite IH. reflexivity.
Qed.

Lemma filter_all (parts : list string) :
  forallb PyStr.nonempty parts = true ->
  filter PyStr.nonempty parts = parts.
Proof.
  induction parts as [|x l IH]; [reflexivity|]. cbn.
  destruct (PyStr.nonempty x); cbn; [|discriminate].
  intros H. now rewrite IH.
Qed.

Lemma filter_shorter (parts : list string) :
  forallb PyStr.nonempty parts = false ->
  List.length (filter PyStr.nonempty parts) < List.length parts.
Proof.
  induction parts as [|x l IH]; [discriminate|]. cbn.
  pose proof (filter_length_le PyStr.nonempty l).
  destruct (PyStr.nonempty x); cbn; intros Hl.
  - apply IH in Hl. lia.
  - lia.
Qed.

End StringFacts.

(** ** Narration text *)

Section Narration.

Import ContentGenerator.

Lemma join_cons_nonempty (sep x : string) (l : list string) :
  l <> [] -> PyStr.join sep (x :: l) = x +++ sep +++ PyStr.join sep l.
Proof. destruct l; [congruence|reflexivity]. Qed.

Lemma join_sections (sections : list Section_) (ending : string) :
  PyStr.join pause
    (map (fun section => get (content section) "") sections ++ [ending])
  = sections_then sections ending.
Proof.
  induction sections as [|section l IH]; [reflexivity|].
  cbn [map app sections_then fold_right].
  rewrite join_cons_nonempty by (destruct l; discriminate).
  rewrite IH. reflexivity.
Qed.

(** C4, as the code has it.  The narration text is the hook, a pause,
    the introduction, a pause, every section body followed by a pause,
    and the conclusion, with an absent field read as the empty string:
    an empty field keeps its pause.  So the text is the one that skips
    the empty fields exactly when no field is empty or absent. *)
Theorem format_script_for_tts_text (script_data : ScriptData) :
  format_script_for_tts script_data
  = get (hook script_data) "" +++ pause +++
    get (introduction script_data) "" +++ pause +++
    sections_then (get (main_content script_data) [])
                  (get (conclusion script_data) "")
  /\
  (format_script_for_tts script_data = flatten_skipping_empty script_data
   <-> forallb PyStr.nonempty (tts_parts script_data) = true).
Proof.
  split.
  - unfold format_script_for_tts, tts_parts. cbn [app].
    rewrite join_cons_nonempty by discriminate.
    rewrite join_cons_nonempty by (now destruct (map _ _)).
    rewrite join_sections. reflexivity.
  - unfold format_script_for_tts, flatten_skipping_empty.
    split.
    + intros Heq.
      destruct (forallb PyStr.nonempty (tts_parts script_data)) eqn:Hall;
        [reflexivity|exfalso].
      apply filter_shorter in Hall.
      apply (f_equal String.length) in Heq.
      pose proof (total_length_filter (tts_parts script_data)) as Htot.
      assert (Hlen : 3 <= List.length (tts_parts script_data)).
      { unfold tts_parts. rewrite !length_app. cbn. lia. }
      destruct (tts_parts script_data) as [|x l]; [cbn in Hlen; lia|].
      rewrite length_join in Heq.
      destruct (filter PyStr.nonempty (x :: l)) as [|y f].
      * cbn in Heq, Hlen. lia.
      * rewrite length_join, Htot in Heq. cbn in Heq, Hall. lia.
    + intros Hall. now rewrite filter_all.
Qed.

(** C4, as the specification states it, fails: a script whose hook is
    empty gets a text that starts with a pause, which the text that
    skips empty fields does not. *)
Lemma empty_hook_keeps_its_pause :
  format_script_for_tts script_without_hook
    = pause +++ "Today we look at the cloud." +++ pause +++
      "Thanks for watching!"
  /\ flatten_skipping_empty script_without_hook
    = "Today we look at the cloud." +++ pause +++ "Thanks for watching!"
  /\ format_script_for_tts script_without_hook
     <> flatten_skipping_empty script_without_hook.
Proof. repeat split. discriminate. Qed.

End Narration.

(** ** Metadata validation *)

Section Validation.

Import SEOOptimizer.

Lemma validate_title_fields (m : Metadata) :
  description (validate_title m) = description m /\
  tags (validate_title m) = tags m /\
  hashtags (validate_title m) = hashtags m.
Proof. unfold validate_title. destruct (60 <? _); repeat split; reflexivity. Qed.

Lemma validate_description_fields (m : Metadata) :
  title (validate_description m) = title m /\
  tags (validate_description m) = tags m /\
  hashtags (validate_description m) = hashtags m.
Proof. unfold validate_description. destruct (5000 <? _); repeat split; reflexivity. Qed.

Lemma validate_tags_fields (m : Metadata) :
  title (validate_tags m) = title m /\
  description (validate_tags m) = description m /\
  tags (validate_tags m) = option_map (PyStr.first_n 30) (tags m) /\
  hashtags (validate_tags m) = hashtags m.
Proof.
  unfold validate_tags.
  destruct (tags m) eqn:Ht; repeat split; rewrite ?Ht; reflexivity.
Qed.

Lemma validate_hashtags_fields (m : Metadata) :
  title (validate_hashtags m) = title m /\
  description (validate_hashtags m) = description m /\
  tags (validate_hashtags m) = tags m /\
  hashtags (validate_hashtags m)
  = option_map (fun hs => map fix_hashtag (PyStr.first_n 15 hs)) (hashtags m).
Proof.
  unfold validate_hashtags.
  destruct (hashtags m) eqn:Hh; repeat split; rewrite ?Hh; reflexivity.
Qed.

Lemma title_validated (m : Metadata) :
  title (_validate_metadata m) = title (validate_title m).
Proof.
  unfold _validate_metadata.
  destruct (validate_hashtags_fields
              (validate_tags (validate_description (validate_title m))))
    as (-> & _).
  destruct (validate_tags_fields (validate_description (validate_title m)))
    as (-> & _).
  now destruct (validate_description_fields (validate_title m)) as (-> & _).
Qed.

Lemma description_validated (m : Metadata) :
  description (_validate_metadata m) = description (validate_description m).
Proof.
  unfold _validate_metadata.
  destruct (validate_hashtags_fields
              (validate_tags (validate_description (validate_title m))))
    as (_ & -> & _).
  destruct (validate_tags_fields (validate_description (validate_title m)))
    as (_ & -> & _).
  destruct (validate_title_fields m) as (Hd & _).
  unfold validate_description. rewrite Hd.
  destruct (5000 <? _); [reflexivity|exact Hd].
Qed.

Lemma tags_validated (m : Metadata) :
  tags (_validate_metadata m) = option_map (PyStr.first_n 30) (tags m).
Proof.
  unfold _validate_metadata.
  destruct (validate_hashtags_fields
              (validate_tags (validate_description (validate_title m))))
    as (_ & _ & -> & _).
  destruct (validate_tags_fields (validate_description (validate_title m)))
    as (_ & _ & -> & _).
  destruct (validate_description_fields (validate_title m)) as (_ & -> & _).
  now destruct (validate_title_fields m) as (_ & -> & _).
Qed.

Lemma hashtags_validated (m : Metadata) :
  hashtags (_validate_metadata m)
  = option_map (fun hs => map fix_hashtag (PyStr.first_n 15 hs)) (hashtags m).
Proof.
  unfold _validate_metadata.
  destruct (validate_hashtags_fields
              (validate_tags (validate_description (validate_title m))))
    as (_ & _ & _ & ->).
  destruct (validate_tags_fields (validate_description (validate_title m)))
    as (_ & _ & _ & ->).
  destruct (validate_description_fields (validate_title m)) as (_ & _ & ->).
  now destruct (validate_title_fields m) as (_ & _ & ->).
Qed.

Lemma fix_hashtag_starts (tag : string) :
  PyStr.startswith "#" (fix_hashtag tag) = true.
Proof.
  unfold fix_hashtag.
  destruct (PyStr.startswith "#" tag) eqn:H; cbn [negb]; [exact H|].
  unfold PyStr.startswith. cbn. destruct tag; reflexivity.
Qed.

(** C6.  [_validate_metadata] replaces a title of more than 60
    characters by its first 57 characters and ["..."] (60 characters in
    all) and keeps a shorter one; replaces a description of more than
    5000 characters by its first 4997 and ["..."]; keeps the first 30
    tags; keeps the first 15 hashtags, each one unchanged when it starts
    with ["#"] and with a ["#"] put in front otherwise. *)
Theorem validate_metadata_limits (m : Metadata) :
  let m' := _validate_metadata m in
  (forall t, title m = Some t ->
     (60 < String.length t ->
      title m' = Some (PyStr.take 57 t +++ "...") /\
      String.length (PyStr.take 57 t) = 57 /\
      String.length (PyStr.take 57 t +++ "...") = 60) /\
     (String.length t <= 60 -> title m' = Some t)) /\
  (forall d, description m = Some d ->
     (5000 < String.length d ->
      description m' = Some (PyStr.take 4997 d +++ "...") /\
      String.length (PyStr.take 4997 d +++ "...") = 5000) /\
     (String.length d <= 5000 -> description m' = Some d)) /\
  (forall ts, tags m = Some ts ->
     tags m' = Some (firstn 30 ts) /\
     List.length (firstn 30 ts) = Nat.min 30 (List.length ts)) /\
  (forall hs, hashtags m = Some hs ->
     exists hs',
       hashtags m' = Some hs' /\
       List.length hs' = Nat.min 15 (List.length hs) /\
       Forall (fun h => PyStr.startswith "#" h = true) hs' /\
       forall i h, i < 15 -> nth_error hs i = Some h ->
         nth_error hs' i
         = Some (if PyStr.startswith "#" h then h else "#" +++ h)).
Proof.
  cbv zeta. split; [|split; [|split]].
  - intros t Ht. rewrite title_validated. unfold validate_title.
    rewrite Ht. cbn [get]. split.
    + intros Hlong. apply Nat.ltb_lt in Hlong as Hb. rewrite Hb.
      cbn [title]. split; [reflexivity|].
      rewrite length_append, length_take. cbn [String.length ellipsis].
      split; [|change (String.length "...") with 3]; lia.
    + intros Hshort. apply Nat.ltb_ge in Hshort. rewrite Hshort. exact Ht.
  - intros d Hd. rewrite description_validated. unfold validate_description.
    rewrite Hd. cbn [get]. split.
    + intros Hlong. apply Nat.ltb_lt in Hlong as Hb. rewrite Hb.
      cbn [description]. split; [reflexivity|].
      rewrite length_append, length_take.
      change (String.length "...") with 3. lia.
    + intros Hshort. apply Nat.ltb_ge in Hshort. rewrite Hshort. exact Hd.
  - intros ts Hts. rewrite tags_validated, Hts. split; [reflexivity|].
    apply length_firstn.
  - intros hs Hhs. rewrite hashtags_validated, Hhs. cbn [option_map].
    eexists. split; [reflexivity|]. unfold PyStr.first_n.
    split; [now rewrite length_map, length_firstn|]. split.
    + apply Forall_forall. intros h Hin. apply in_map_iff in Hin.
      destruct Hin as (h0 & <- & _). apply fix_hashtag_starts.
    + intros i h Hi Hnth. rewrite nth_error_map, nth_error_firstn.
      apply Nat.ltb_lt in Hi. rewrite Hi, Hnth. cbn [option_map].
      unfold fix_hashtag. destruct (PyStr.startswith "#" h); reflexivity.
Qed.

End Validation.

(** The three examples of C6: the 70-character title, the 31 tags and
    the hashtag ["tech"]. *)
Lemma validate_metadata_limits_witness :
  let m' := SEOOptimizer._validate_metadata oversized_metadata in
  title m'
    = Some "Cloud Computing Explained For Absolute Beginners: The Com..." /\
  option_map (@List.length string) (tags m') = Some 30 /\
  hashtags m' = Some ["#tech"; "#cloud"].
Proof.
  destruct (validate_metadata_limits oversized_metadata)
    as (Htitle & _ & Htags & Hhash).
  cbv zeta. split; [|split].
  - destruct (Htitle _ eq_refl) as [Hlong _].
    destruct Hlong as [Ht _]; [cbn; lia|]. exact Ht.
  - destruct (Htags _ eq_refl) as [Ht _]. rewrite Ht. reflexivity.
  - destruct (Hhash _ eq_refl) as (hs' & Hh & _ & _ & Hnth).
    rewrite Hh. f_equal.
    pose proof (Hnth 0 "tech" ltac:(lia) eq_refl) as H0.
    pose proof (Hnth 1 "#cloud" ltac:(lia) eq_refl) as H1.
    assert (Hlen : List.length hs' = 2).
    { destruct (Hhash _ eq_refl) as (hs2 & Hh2 & Hl & _).
      rewrite Hh in Hh2. injection Hh2 as <-. exact Hl. }
    destruct hs' as [|a [|b [|c l]]]; try discriminate.
    cbn in H0, H1. injection H0 as ->. injection H1 as ->. reflexivity.
Defined.

(** ** Title words and the thumbnail subtitle *)

Section Words.

Lemma no_space_append (a b : string) :
  no_space (a +++ b) = no_space a && no_space b.
Proof.
  induction a as [|c a IH]; cbn; [reflexivity|].
  rewrite IH. now rewrite andb_assoc.
Qed.

(** Every word [split] returns is not empty and has no whitespace. *)
Lemma split_from_tokens (s cur : string) :
  no_space cur = true ->
  Forall (fun w => is_token w = true) (PyStr.split_from cur s).
Proof.
  revert cur. induction s as [|c s IH]; intros cur Hcur.
  - cbn. destruct cur; constructor; [|constructor].
    unfold is_token. now rewrite Hcur.
  - cbn [PyStr.split_from]. destruct (PyStr.isspace c) eqn:Hc.
    + destruct cur as [|x cur].
      * now apply IH.
      * constructor; [|now apply IH].
        unfold is_token. now rewrite Hcur.
    + apply IH. rewrite no_space_append, Hcur. cbn. now rewrite Hc.
Qed.

Lemma split_tokens (s : string) :
  Forall (fun w => is_token w = true) (PyStr.split s).
Proof. now apply split_from_tokens. Qed.

Lemma split_from_word (w s cur : string) :
  no_space w = true ->
  PyStr.split_from cur (w +++ s) = PyStr.split_from (cur +++ w) s.
Proof.
  revert cur. induction w as [|c w IH]; intros cur Hw.
  - now rewrite append_empty_r.
  - cbn in Hw. apply andb_prop in Hw as [Hc Hw].
    apply negb_true_iff in Hc.
    cbn [String.append PyStr.split_from]. rewrite Hc, IH by exact Hw.
    rewrite append_assoc. reflexivity.
Qed.

(** Words joined by single spaces split back into the same words. *)
Lemma split_join (words : list string) :
  Forall (fun w => is_token w = true) words ->
  PyStr.split (PyStr.join " " words) = words.
Proof.
  unfold PyStr.split.
  induction 1 as [|w l Hw Hl IH]; [reflexivity|].
  unfold is_token in Hw. apply andb_prop in Hw as [Hne Hns].
  destruct l as [|y l].
  - cbn [PyStr.join String.concat].
    rewrite <- (append_empty_r w), split_from_word by exact Hns.
    cbn. rewrite append_empty_r. now destruct w.
  - rewrite join_cons, split_from_word by exact Hns.
    cbn [String.append PyStr.split_from].
    change (PyStr.isspace " ") with true. cbn iota.
    rewrite IH. now destruct w.
Qed.

Lemma last_three A (l : list A) :
  3 < List.length l ->
  exists before a b c,
    l = before ++ [a; b; c] /\ before <> [] /\ PyStr.last_n 3 l = [a; b; c].
Proof.
  intros Hlen. unfold PyStr.last_n.
  pose proof (firstn_skipn (List.length l - 3) l) as Hsplit.
  pose proof (length_skipn (List.length l - 3) l) as Hlast.
  pose proof (length_firstn (List.length l - 3) l) as Hfirst.
  destruct (skipn (List.length l - 3) l) as [|a [|b [|c [|x rest]]]];
    cbn in Hlast; try lia.
  exists (firstn (List.length l - 3) l), a, b, c.
  split; [now symmetry|]. split; [|reflexivity].
  intros Hnil. rewrite Hnil in Hfirst. cbn in Hfirst. lia.
Qed.

(** C5.  [_create_thumbnail] calls the renderer once, with the subtitle
    computed from the title: when the title has more than three words,
    its last three words joined by single spaces (a text that splits
    back into these three words); no subtitle otherwise.  So
    ["A B C D E"] gives ["C D E"] and ["A B C"] gives none. *)
Theorem thumbnail_subtitle_words (self : Collaborators) (metadata : Metadata) :
  let words := PyStr.split (get (title metadata) "") in
  let subtitle := VideoPipeline.thumbnail_subtitle metadata in
  calls_of (VideoPipeline._create_thumbnail self metadata)
    = [CallCreateThumbnail
         (get (thumbnail_text metadata) (get (title metadata) "VIDEO"))
         subtitle] /\
  (3 < List.length words ->
   exists before a b c,
     words = before ++ [a; b; c] /\ before <> [] /\
     subtitle = Some (a +++ " " +++ b +++ " " +++ c) /\
     PyStr.split (a +++ " " +++ b +++ " " +++ c) = [a; b; c]) /\
  (List.length words <= 3 -> subtitle = None) /\
  VideoPipeline.thumbnail_subtitle (titled "A B C D E") = Some "C D E" /\
  VideoPipeline.thumbnail_subtitle (titled "A B C") = None.
Proof.
  cbv zeta. split; [apply create_thumbnail_calls|].
  split; [|split; [|split; reflexivity]].
  - intros Hlen. unfold VideoPipeline.thumbnail_subtitle.
    apply Nat.ltb_lt in Hlen as Hb. rewrite Hb.
    destruct (last_three _ Hlen) as (before & a & b & c & Hw & Hne & Hlast).
    exists before, a, b, c. rewrite Hlast.
    split; [exact Hw|]. split; [exact Hne|]. split; [reflexivity|].
    apply (@split_join [a; b; c]).
    pose proof (split_tokens (get (title metadata) "")) as Htok.
    rewrite Hw in Htok. apply Forall_app in Htok. tauto.
  - intros Hlen. unfold VideoPipeline.thumbnail_subtitle.
    apply Nat.ltb_ge in Hlen. now rewrite Hlen.
Qed.

End Words.

Lemma thumbnail_subtitle_words_witness :
  VideoPipeline.thumbnail_subtitle
    (titled "Cloud Computing Explained For Absolute Beginners")
  = Some "For Absolute Beginners".
Proof.
  destruct (thumbnail_subtitle_words Samples.happy
              (titled "Cloud Computing Explained For Absolute Beginners"))
    as (_ & Hlong & _).
  assert (Hwords :
    PyStr.split
      (get (title (titled "Cloud Computing Explained For Absolute Beginners")) "")
    = ["Cloud"; "Computing"; "Explained"] ++ ["For"; "Absolute"; "Beginners"])
    by (vm_compute; reflexivity).
  rewrite Hwords in Hlong.
  destruct Hlong as (before & a & b & c & Hw & _ & Hs & _);
    [cbn [List.length app]; lia|].
  rewrite Hs.
  assert (Hlen : List.length before = 3).
  { apply (f_equal (@List.length string)) in Hw.
    rewrite !length_app in Hw. cbn [List.length] in Hw. lia. }
  destruct before as [|x [|y [|z [|u rest]]]]; try discriminate.
  cbn [app] in Hw. injection Hw as _ _ _ <- <- <-. reflexivity.
Defined.

(** * More properties of the code *)

(** ** The orchestrator *)

Section Orchestrator.

Import VideoPipeline.
Variable self : Collaborators.
Variable topic : option string.

(** X1.  [run] never leaves a record with status ['running']: it returns
    its record, with status ['success'] and no [error] key, or it raises
    an exception [e] and leaves a record with status ['error'] and
    [error = str(e)]; the start time stays the one read first. *)
Theorem run_ends_in_a_terminal_status (upload send_email : bool) :
  let o := fst (execute self topic upload send_email) in
  let r := results (snd (execute self topic upload send_email)) in
  dict_get "start_time" r = Some (PIso (clock self 0)) /\
  status_is r "running" = false /\
  ((o = Ret r /\ status_is r "success" = true /\ has_key "error" r = false) \/
   (exists e, o = Raise e /\ status_is r "error" = true /\
              dict_get "error" r = Some (PStr (exc_msg e)))).
Proof.
  cbv zeta.
  destruct (run_cases self topic) as [(k & e & Hk) | (sd & md & tp & ap & d & vp & Hs)].
  - rewrite (execute_error upload send_email Hk). cbv zeta.
    cbn [fst snd results]. split; [reflexivity|]. split; [reflexivity|].
    right. exists e. repeat split.
  - rewrite (execute_success upload send_email Hs). cbv zeta.
    cbn [fst snd results]. split; [reflexivity|]. split; [reflexivity|].
    left. repeat split.
Qed.

Lemma publish_names (upload send_email : bool) (upload_result : dict) :
  exists rest,
    ["youtube_upload"; "email_notification"]
    = map fst (publish_entries upload send_email upload_result) ++ rest.
Proof.
  unfold publish_entries. destruct upload; [|now exists ["email_notification"]].
  destruct (send_email && _); [now exists []|now exists ["email_notification"]].
Qed.

(** X2.  In every run the recorded stages are, in this order, the first
    stages of the sequence content_generation, seo_optimization,
    thumbnail_creation, audio_production, video_editing, youtube_upload,
    email_notification: no stage is recorded before an earlier one, none
    twice. *)
Theorem stages_are_recorded_in_execution_order (upload send_email : bool) :
  exists rest,
    all_stage_names
    = stage_names (results (snd (execute self topic upload send_email)))
      ++ rest.
Proof.
  destruct (run_cases self topic) as [(k & e & Hk) | (sd & md & tp & ap & d & vp & Hs)].
  - rewrite (execute_error upload send_email Hk). cbv zeta.
    unfold stage_names. cbn [snd results]. cbn [stages_of error_record dict_get
      String.eqb Ascii.eqb Bool.eqb].
    rewrite (recorded_names Hk).
    exists (skipn (k - 1) fail_fast_stages ++ ["youtube_upload"; "email_notification"]).
    unfold all_stage_names. rewrite app_assoc, firstn_skipn. reflexivity.
  - rewrite (execute_success upload send_email Hs). cbv zeta.
    unfold stage_names. cbn [snd results]. cbn [stages_of success_record dict_get
      String.eqb Ascii.eqb Bool.eqb].
    rewrite map_app.
    assert (Hrec : map fst (recorded_entries self topic) = fail_fast_stages).
    { destruct Hs as (H1 & H2 & H3 & H4 & H5).
      unfold recorded_entries. rewrite H1, H2, H3, H4, H5. reflexivity. }
    rewrite Hrec.
    destruct (publish_names upload send_email (upload_result_of self vp md tp))
      as [rest Hrest].
    exists rest. unfold all_stage_names. rewrite Hrest, app_assoc. reflexivity.
Qed.

Lemma quiet_filters (calls : list event) :
  quiet calls ->
  filter is_success_call calls = [] /\ filter is_error_call calls = [].
Proof.
  intros [He Hs]. split.
  - induction calls as [|c l IH]; [reflexivity|]. cbn in *.
    destruct (is_success_call c); [discriminate|]. apply IH.
    + now destruct (is_error_call c).
    + exact Hs.
  - induction calls as [|c l IH]; [reflexivity|]. cbn in *.
    destruct (is_error_call c); [discriminate|]. apply IH.
    + exact He.
    + now destruct (is_success_call c).
Qed.

(** X3.  When stages 1-5 succeed, the success notifier is called once,
    with the upload result and the metadata, if [upload] and [send_email]
    are true and the upload result has status ['success'], and not at all
    otherwise; the [email_notification] entry exists in exactly that case;
    the error notifier is not called. *)
Theorem success_notification_condition (upload send_email : bool)
    sd md tp ap d vp upload_result :
  stages_succeed self topic sd md tp ap d vp ->
  result_of (_upload_to_youtube self vp md tp) = Ret upload_result ->
  let w := snd (execute self topic upload send_email) in
  let notified := upload && send_email && status_is upload_result "success" in
  filter is_success_call (trace w)
    = (if notified then [CallSendSuccessNotification upload_result md] else []) /\
  has_key "email_notification" (stages_of (results w)) = notified /\
  filter is_error_call (trace w) = [].
Proof.
  intros Hs Hu. cbv zeta.
  rewrite upload_to_youtube_spec in Hu. cbn in Hu. injection Hu as Hu.
  rewrite (execute_success upload send_email Hs). cbv zeta.
  rewrite Hu. cbn [snd trace results].
  destruct (quiet_filters (production_calls_quiet self topic)) as [Fs Fe].
  destruct (recorded_no_publish self topic) as [_ Hn].
  rewrite !filter_app, Fs, Fe.
  unfold has_key.
  cbn [stages_of success_record dict_get String.eqb Ascii.eqb Bool.eqb].
  rewrite dict_get_app, Hn.
  unfold publish_calls, publish_entries.
  destruct upload; [|repeat split].
  cbn [andb]. destruct (send_email && status_is upload_result "success");
    repeat split.
Qed.

End Orchestrator.

Lemma success_notification_condition_witness :
  let w := snd (execute Samples.happy None true true) in
  filter is_success_call (trace w)
    = [CallSendSuccessNotification Samples.uploaded sample_metadata] /\
  has_key "email_notification" (stages_of (results w)) = true /\
  filter is_error_call (trace w) = [].
Proof.
  apply (@success_notification_condition Samples.happy None true true
           Samples.script sample_metadata "output/thumbnail.png"
           "output/audio.mp3" (42 # 1)%Q "output/video.mp4" Samples.uploaded).
  - apply sample_stages_succeed.
  - reflexivity.
Defined.

Section OrchestratorCalls.

Import VideoPipeline.
Variable self : Collaborators.
Variable topic : option string.

Ltac no_dump_in_wrapper :=
  unfold calls_of, _generate_content, _generate_seo, _create_thumbnail,
    _generate_audio, _create_video;
  cbn -[ContentGenerator.format_script_for_tts thumbnail_subtitle];
  repeat match goal with
         | |- context [match ?o with Ret _ => _ | Raise _ => _ end] =>
             destruct o as [?|?];
             cbn -[ContentGenerator.format_script_for_tts thumbnail_subtitle]
         | |- context [let (_, _) := ?p in _] =>
             is_var p; destruct p;
             cbn -[ContentGenerator.format_script_for_tts thumbnail_subtitle]
         end;
  reflexivity.

Lemma production_calls_no_dump :
  existsb is_dump_call (production_calls self topic) = false.
Proof.
  assert (H1 : forall t, existsb is_dump_call
                 (calls_of (_generate_content self t)) = false)
    by (intros; no_dump_in_wrapper).
  assert (H2 : forall sd, existsb is_dump_call
                 (calls_of (_generate_seo self sd)) = false)
    by (intros; no_dump_in_wrapper).
  assert (H3 : forall md, existsb is_dump_call
                 (calls_of (_create_thumbnail self md)) = false)
    by (intros; no_dump_in_wrapper).
  assert (H4 : forall sd, existsb is_dump_call
                 (calls_of (_generate_audio self sd)) = false)
    by (intros; no_dump_in_wrapper).
  assert (H5 : forall ap tp sd, existsb is_dump_call
                 (calls_of (_create_video self ap tp sd)) = false)
    by (intros; no_dump_in_wrapper).
  unfold production_calls.
  repeat match goal with
         | |- existsb _ (_ ++ _) = false => rewrite existsb_app
         | |- context [existsb is_dump_call (calls_of _)] =>
             rewrite ?H1, ?H2, ?H3, ?H4, ?H5; cbn [orb]
         | |- context [match ?o with Ret _ => _ | Raise _ => _ end] =>
             destruct o as [?|?]
         | |- context [match ?p with (_, _) => _ end] => destruct p
         end;
    reflexivity.
Qed.

(** Every run starts with the calls of stages 1-5. *)
Lemma trace_starts_with_production (upload send_email : bool) :
  exists rest,
    trace (snd (execute self topic upload send_email))
    = production_calls self topic ++ rest.
Proof.
  destruct (run_cases self topic) as [(k & e & Hk) | (sd & md & tp & ap & d & vp & Hs)].
  - rewrite (execute_error upload send_email Hk). cbv zeta.
    cbn [snd trace]. eexists. reflexivity.
  - rewrite (execute_success upload send_email Hs). cbv zeta.
    cbn [snd trace]. eexists. reflexivity.
Qed.

(** X4.  Every run, returning or raising, attempts the write of its
    results file (the [open] and [json.dump] of [_save_results], one
    step here) exactly once, as its last call, with its final record. *)
Theorem results_write_is_attempted_once_at_the_end (upload send_email : bool) :
  let w := snd (execute self topic upload send_email) in
  exists before timestamp,
    trace w = before ++ [CallJsonDump timestamp (results w)] /\
    existsb is_dump_call before = false.
Proof.
  cbv zeta.
  destruct (run_cases self topic) as [(k & e & Hk) | (sd & md & tp & ap & d & vp & Hs)].
  - rewrite (execute_error upload send_email Hk). cbv zeta.
    cbn [snd trace results].
    eexists (_ ++ _), _. split; [now rewrite <- app_assoc|].
    rewrite existsb_app, production_calls_no_dump.
    unfold error_calls. destruct send_email; [|reflexivity].
    now destruct (first_error_stage _).
  - rewrite (execute_success upload send_email Hs). cbv zeta.
    cbn [snd trace results].
    eexists (_ ++ _), _. split; [now rewrite <- app_assoc|].
    rewrite existsb_app, production_calls_no_dump.
    unfold publish_calls. destruct upload; [|reflexivity].
    now destruct (send_email && _).
Qed.

(** X5.  An exception of the uploader does not leave [run]: when stages
    1-5 succeed and [upload_video] raises [e], [run] returns a record
    with status ['success'] whose [youtube_upload] entry is
    [{'status': 'error', 'error': str(e)}], and the success notifier is
    not called. *)
Theorem uploader_exception_becomes_an_entry (send_email : bool)
    sd md tp ap d vp e :
  stages_succeed self topic sd md tp ap d vp ->
  upload_video self vp md tp = Raise e ->
  exists r w,
    execute self topic true send_email = (Ret r, w) /\
    status_is r "success" = true /\
    stage_entry "youtube_upload" r
      = Some (PDict [("status", PStr "error"); ("error", PStr (exc_msg e))]) /\
    stage_entry "email_notification" r = None /\
    existsb is_success_call (trace w) = false.
Proof.
  intros Hs He.
  pose proof (execute_success true send_email Hs) as E. cbv zeta in E.
  unfold upload_result_of in E. rewrite He in E.
  destruct (recorded_no_publish self topic) as [Hy Hn].
  eexists _, _. split; [exact E|].
  unfold stage_entry, publish_entries, publish_calls.
  replace (status_is [("status", PStr "error"); ("error", PStr (exc_msg e))]
             "success") with false by reflexivity.
  rewrite andb_false_r.
  cbn [results trace stages_of success_record dict_get
       String.eqb Ascii.eqb Bool.eqb].
  rewrite !dict_get_app, Hy, Hn.
  rewrite existsb_quiet_success by apply production_calls_quiet.
  repeat split; reflexivity.
Qed.

(** X6.  Inside [run] the thumbnail renderer gets the text that
    [generate_thumbnail_text] returned for the generated metadata (the
    defaults of [_create_thumbnail], the title and ['VIDEO'], are never
    used), and the audio producer gets the narration text of the script
    of stage 1. *)
Theorem run_forwards_the_generated_texts (upload send_email : bool) sd md tp :
  result_of (_generate_content self topic) = Ret sd ->
  result_of (_generate_seo self sd) = Ret md ->
  result_of (_create_thumbnail self md) = Ret tp ->
  let w := snd (execute self topic upload send_email) in
  exists md0 text,
    generate_metadata self sd = Ret md0 /\
    generate_thumbnail_text self md0 = Ret text /\
    In (CallCreateThumbnail text (thumbnail_subtitle md0)) (trace w) /\
    In (CallCreateFullAudio (ContentGenerator.format_script_for_tts sd))
       (trace w).
Proof.
  intros H1 H2 H3. cbv zeta.
  destruct (trace_starts_with_production upload send_email) as [rest ->].
  assert (Hseo := H2). unfold result_of, _generate_seo in Hseo. cbn in Hseo.
  destruct (generate_metadata self sd) as [md0|e0] eqn:Hmd; [|discriminate].
  cbn in Hseo.
  destruct (generate_thumbnail_text self md0) as [text|e1] eqn:Htext;
    [|discriminate].
  cbn in Hseo.
  destruct (save_metadata self _); [|discriminate].
  cbn in Hseo. injection Hseo as <-.
  exists md0, text. split; [reflexivity|]. split; [exact Htext|].
  unfold production_calls. rewrite H1, H2, H3.
  rewrite create_thumbnail_calls.
  assert (Haudio : In (CallCreateFullAudio
                         (ContentGenerator.format_script_for_tts sd))
                      (calls_of (_generate_audio self sd))).
  { unfold calls_of, _generate_audio.
    cbn -[ContentGenerator.format_script_for_tts].
    destruct (create_full_audio self _) as [[ap0 q0]|e2]; left; reflexivity. }
  rewrite !in_app_iff. cbn [In]. split.
  - left. right. right. left. left. reflexivity.
  - left. right. right. right. left. exact Haudio.
Qed.

(** X7.  [_get_failed_stage] answers the name of the first stage, in
    insertion order, whose entry has status ['error'], and ['Unknown']
    when no entry has. *)
Theorem get_failed_stage_finds_the_first_error
    (record before after : dict) (name : string) (entry : dict) :
  Forall not_failed before ->
  (dict_get "stages" record = Some (PDict before) ->
   _get_failed_stage record = Ret "Unknown") /\
  (dict_get "stages" record
     = Some (PDict (before ++ (name, PDict entry) :: after)) ->
   status_is entry "error" = true ->
   _get_failed_stage record = Ret name).
Proof.
  intros Hbefore. unfold _get_failed_stage. split.
  - intros ->. induction Hbefore as [|[k v] l (dd & Hv & Hd) _ IH];
      [reflexivity|].
    cbn in Hv. subst v. cbn [first_error_stage]. now rewrite Hd.
  - intros -> Herr. induction Hbefore as [|[k v] l (dd & Hv & Hd) _ IH].
    + cbn [app first_error_stage]. now rewrite Herr.
    + cbn in Hv. subst v. cbn [app first_error_stage]. now rewrite Hd.
Qed.

End OrchestratorCalls.

Lemma uploader_exception_becomes_an_entry_witness :
  let self := Samples.studio Samples.audio_ok
                (Raise (mkExc "ValueError" "YouTube API credentials not configured."))
                (Ret true) (Ret true) (Ret tt) in
  exists r w,
    execute self None true true = (Ret r, w) /\
    status_is r "success" = true /\
    stage_entry "youtube_upload" r
      = Some (PDict [("status", PStr "error");
                     ("error", PStr "YouTube API credentials not configured.")]) /\
    stage_entry "email_notification" r = None /\
    existsb is_success_call (trace w) = false.
Proof.
  apply (@uploader_exception_becomes_an_entry
           (Samples.studio Samples.audio_ok
              (Raise (mkExc "ValueError" "YouTube API credentials not configured."))
              (Ret true) (Ret true) (Ret tt))
           None true Samples.script sample_metadata "output/thumbnail.png"
           "output/audio.mp3" (42 # 1)%Q "output/video.mp4"
           (mkExc "ValueError" "YouTube API credentials not configured.")).
  - apply sample_stages_succeed.
  - reflexivity.
Defined.

Lemma run_forwards_the_generated_texts_witness :
  let w := snd (execute Samples.happy None true true) in
  exists md0 text,
    generate_metadata Samples.happy Samples.script = Ret md0 /\
    generate_thumbnail_text Samples.happy md0 = Ret text /\
    In (CallCreateThumbnail text (VideoPipeline.thumbnail_subtitle md0)) (trace w) /\
    In (CallCreateFullAudio
          (ContentGenerator.format_script_for_tts Samples.script)) (trace w).
Proof.
  apply (@run_forwards_the_generated_texts Samples.happy None true true
           Samples.script sample_metadata "output/thumbnail.png");
    reflexivity.
Defined.

Lemma get_failed_stage_finds_the_first_error_witness :
  let stages :=
    [("content_generation", PDict [("status", PStr "success")]);
     ("youtube_upload", PDict Samples.upload_rejected);
     ("email_notification", PDict [("status", PStr "error")])] in
  VideoPipeline._get_failed_stage [("stages", PDict stages)]
  = Ret "youtube_upload".
Proof.
  refine (proj2 (@get_failed_stage_finds_the_first_error
           [("stages", PDict
               [("content_generation", PDict [("status", PStr "success")]);
                ("youtube_upload", PDict Samples.upload_rejected);
                ("email_notification", PDict [("status", PStr "error")])])]
           [("content_generation", PDict [("status", PStr "success")])]
           [("email_notification", PDict [("status", PStr "error")])]
           "youtube_upload" Samples.upload_rejected _) eq_refl eq_refl).
  constructor; [|constructor].
  exists [("status", PStr "success")]. split; reflexivity.
Defined.

(** ** Code blocks in the model's answer *)

Section CodeFence.

Lemma split_on_from_nonempty (sep : string) (s : string) :
  forall skip cur, PyText.split_on_from sep skip cur s <> [].
Proof.
  induction s as [|c s IH]; intros skip cur; cbn [PyText.split_on_from].
  - discriminate.
  - destruct skip; [|apply IH].
    destruct (String.prefix sep (String c s)); [discriminate|apply IH].
Qed.

Lemma prefix_append (p rest : string) : String.prefix p (p +++ rest) = true.
Proof.
  induction p as [|c p IH]; cbn; [now destruct rest|].
  destruct (ascii_dec c c); [exact IH|congruence].
Qed.

Lemma fence_prefix (rest : string) : String.prefix fence (fence +++ rest) = true.
Proof.
  unfold fence. cbn. repeat (destruct (ascii_dec _ _); [|congruence]).
  now destruct rest.
Qed.

Lemma no_backquote_cons (c : ascii) (s : string) :
  no_backquote (String c s) -> c <> "`"%char /\ no_backquote s.
Proof.
  intros H. split.
  - intros ->. apply (H EmptyString s). reflexivity.
  - intros a b ->. apply (H (String c a) b). reflexivity.
Qed.

Lemma split_on_piece (piece rest cur : string) :
  no_backquote piece ->
  PyText.split_on_from fence 0 cur (piece +++ fence +++ rest)
  = (cur +++ piece) :: PyText.split_on_from fence 0 EmptyString rest.
Proof.
  revert cur. induction piece as [|c piece IH]; intros cur Hp.
  - rewrite append_empty_r. change (EmptyString +++ fence +++ rest) with (fence +++ rest).
    pose proof (fence_prefix rest) as Hf.
    unfold fence in *. cbn [String.append PyText.split_on_from] in *.
    rewrite Hf. reflexivity.
  - apply no_backquote_cons in Hp as [Hc Hp].
    cbn [String.append PyText.split_on_from].
    replace (String.prefix fence (String c (piece +++ fence +++ rest)))
      with false.
    + rewrite IH by exact Hp. now rewrite append_assoc.
    + unfold fence. cbn [String.prefix].
      destruct (ascii_dec "`" c) as [E|E]; [congruence|reflexivity].
Qed.

Lemma strip_code_fence_total (text : string) :
  exists inner, strip_code_fence text = Ret inner.
Proof.
  unfold strip_code_fence.
  destruct (PyStr.startswith fence text) eqn:Hstart; [|now exists text].
  destruct text as [|c text]; [discriminate|].
  unfold PyText.split_on. cbn [PyText.split_on_from].
  unfold PyStr.startswith in Hstart. rewrite Hstart.
  destruct (PyText.split_on_from fence (String.length fence - 1)
              EmptyString text) as [|inner l] eqn:Hs.
  - now apply split_on_from_nonempty in Hs.
  - destruct (PyStr.startswith "json" inner); eexists; reflexivity.
Qed.

(** X8.  The removal of a code block never fails; a text that does not
    start with a fence is kept as it is. *)
Theorem strip_code_fence_returns (text : string) :
  (exists inner, strip_code_fence text = Ret inner) /\
  (PyStr.startswith fence text = false -> strip_code_fence text = Ret text).
Proof.
  split; [apply strip_code_fence_total|].
  unfold strip_code_fence. intros ->. reflexivity.
Qed.

(** X9.  Of an answer made of a fence, an optional [json], a body
    without backquote, a closing fence and anything after it, the removal
    of the code block leaves the body.  (Without [json] the body must not
    itself start with [json].) *)
Theorem strip_code_fence_gives_the_body (body rest : string) :
  no_backquote body ->
  strip_code_fence (fence +++ "json" +++ body +++ fence +++ rest) = Ret body /\
  (PyStr.startswith "json" body = false ->
   strip_code_fence (fence +++ body +++ fence +++ rest) = Ret body).
Proof.
  intros Hbody.
  assert (Hskip : forall x,
    PyText.split_on fence (fence +++ x)
    = EmptyString :: PyText.split_on_from fence 0 EmptyString x).
  { intros x. unfold PyText.split_on.
    pose proof (fence_prefix x) as Hf.
    unfold fence in *. cbn [String.append PyText.split_on_from] in *.
    rewrite Hf. reflexivity. }
  split.
  - unfold strip_code_fence, PyStr.startswith.
    rewrite fence_prefix, Hskip.
    rewrite <- (append_assoc "json" body).
    rewrite split_on_piece.
    + cbn [String.append].
      change (String "j" (String "s" (String "o" (String "n" body))))
        with ("json" +++ body).
      rewrite prefix_append. reflexivity.
    + intros a b H. destruct a as [|c1 [|c2 [|c3 [|c4 a]]]];
        cbn in H; try discriminate.
      injection H as _ _ _ _ H. exact (Hbody a b H).
  - intros Hj. unfold strip_code_fence, PyStr.startswith.
    rewrite fence_prefix, Hskip, split_on_piece by exact Hbody.
    cbn [String.append]. unfold PyStr.startswith in Hj. rewrite Hj.
    reflexivity.
Qed.

End CodeFence.

Lemma strip_code_fence_gives_the_body_witness :
  strip_code_fence ("```json{ }``` trailing words") = Ret "{ }".
Proof.
  refine (proj1 (@strip_code_fence_gives_the_body "{ }" " trailing words" _)).
  intros a b H.
  destruct a as [|c1 [|c2 [|c3 [|c4 a]]]]; cbn in H; discriminate.
Defined.

(** ** Metadata generation *)

Section MetadataGeneration.

Import SEOOptimizer.

Lemma metadata_ext (a b : Metadata) :
  title a = title b -> description a = description b ->
  tags a = tags b -> hashtags a = hashtags b -> keywords a = keywords b ->
  generated_at a = generated_at b -> original_topic a = original_topic b ->
  thumbnail_text a = thumbnail_text b ->
  a = b.
Proof. destruct a, b. cbn. intros; subst. reflexivity. Qed.

Lemma validate_keeps_the_rest (m : Metadata) :
  keywords (_validate_metadata m) = keywords m /\
  generated_at (_validate_metadata m) = generated_at m /\
  original_topic (_validate_metadata m) = original_topic m /\
  thumbnail_text (_validate_metadata m) = thumbnail_text m.
Proof.
  assert (Ht : forall x,
    keywords (validate_title x) = keywords x /\
    generated_at (validate_title x) = generated_at x /\
    original_topic (validate_title x) = original_topic x /\
    thumbnail_text (validate_title x) = thumbnail_text x).
  { intros x. unfold validate_title. destruct (60 <? _); repeat split. }
  assert (Hd : forall x,
    keywords (validate_description x) = keywords x /\
    generated_at (validate_description x) = generated_at x /\
    original_topic (validate_description x) = original_topic x /\
    thumbnail_text (validate_description x) = thumbnail_text x).
  { intros x. unfold validate_description. destruct (5000 <? _); repeat split. }
  assert (Hg : forall x,
    keywords (validate_tags x) = keywords x /\
    generated_at (validate_tags x) = generated_at x /\
    original_topic (validate_tags x) = original_topic x /\
    thumbnail_text (validate_tags x) = thumbnail_text x).
  { intros x. unfold validate_tags. destruct (tags x); repeat split. }
  assert (Hh : forall x,
    keywords (validate_hashtags x) = keywords x /\
    generated_at (validate_hashtags x) = generated_at x /\
    original_topic (validate_hashtags x) = original_topic x /\
    thumbnail_text (validate_hashtags x) = thumbnail_text x).
  { intros x. unfold validate_hashtags. destruct (hashtags x); repeat split. }
  unfold _validate_metadata.
  destruct (Hh (validate_tags (validate_description (validate_title m))))
    as (-> & -> & -> & ->).
  destruct (Hg (validate_description (validate_title m)))
    as (-> & -> & -> & ->).
  destruct (Hd (validate_title m)) as (-> & -> & -> & ->).
  exact (Ht m).
Qed.

(** The result of [_validate_metadata] is within the limits. *)
Lemma validate_within_limits (m : Metadata) :
  within_limits (_validate_metadata m).
Proof.
  unfold within_limits.
  rewrite title_validated, description_validated, tags_validated,
    hashtags_validated.
  repeat split.
  - unfold validate_title. destruct (60 <? _) eqn:H.
    + cbn [title get]. rewrite length_append, length_take.
      change (String.length ellipsis) with 3. lia.
    + now apply Nat.ltb_ge in H.
  - unfold validate_description. destruct (5000 <? _) eqn:H.
    + cbn [description get]. rewrite length_append, length_take.
      change (String.length ellipsis) with 3. lia.
    + now apply Nat.ltb_ge in H.
  - destruct (tags m); cbn [option_map get List.length]; [|lia].
    unfold PyStr.first_n. rewrite length_firstn. lia.
  - destruct (hashtags m); cbn [option_map get List.length]; [|lia].
    unfold PyStr.first_n. rewrite length_map, length_firstn. lia.
  - destruct (hashtags m); cbn [option_map get]; [|constructor].
    apply Forall_forall. intros h Hin. apply in_map_iff in Hin.
    destruct Hin as (h0 & <- & _). apply fix_hashtag_starts.
Qed.

Lemma fix_hashtag_fixed (h : string) :
  PyStr.startswith "#" h = true -> fix_hashtag h = h.
Proof. unfold fix_hashtag. now intros ->. Qed.

(** X10.  Validating twice changes nothing more: [_validate_metadata]
    leaves its own result as it is. *)
Theorem validate_metadata_idempotent (m : Metadata) :
  _validate_metadata (_validate_metadata m) = _validate_metadata m.
Proof.
  destruct (validate_within_limits m) as (Ht & Hd & Hg & Hh & Hs).
  destruct (validate_keeps_the_rest (_validate_metadata m))
    as (Hk & Ha & Ho & Hx).
  apply metadata_ext; try assumption.
  - rewrite title_validated. unfold validate_title.
    apply Nat.ltb_ge in Ht. now rewrite Ht.
  - rewrite description_validated. unfold validate_description.
    apply Nat.ltb_ge in Hd. now rewrite Hd.
  - rewrite tags_validated.
    destruct (tags (_validate_metadata m)) as [ts|]; [|reflexivity].
    cbn [option_map get] in *. unfold PyStr.first_n.
    now rewrite firstn_all2.
  - rewrite hashtags_validated.
    destruct (hashtags (_validate_metadata m)) as [hs|]; [|reflexivity].
    cbn [option_map get] in *. unfold PyStr.first_n.
    rewrite firstn_all2 by exact Hh. f_equal.
    clear Hh. induction Hs as [|h l Hh _ IH]; [reflexivity|].
    cbn [map]. now rewrite fix_hashtag_fixed, IH.
Qed.

Import SEOOptimizerCalls.

Lemma generation_info_within_limits (m : Metadata) (now topic : string) :
  within_limits m -> within_limits (with_generation_info m now topic).
Proof. intros H. exact H. Qed.

(** X11.  Whatever the model answered, the metadata [generate_metadata]
    returns is within the limits - a title of at most 60 characters, a
    description of at most 5000, at most 30 tags, at most 15 hashtags,
    each starting with [#] - and carries the generation time and the
    topic of the script (['Technology'] when the script has none). *)
Theorem generate_metadata_within_limits completion json_loads now
    (script_data : ScriptData) (m : Metadata) :
  generate_metadata completion json_loads now script_data = Ret m ->
  within_limits m /\
  generated_at m = Some now /\
  original_topic m = Some (get (topic script_data) "Technology").
Proof.
  unfold generate_metadata. cbn.
  destruct completion as [content|e]; [|discriminate].
  destruct (match strip_code_fence (PyText.strip content) with
            | Ret a => json_loads a
            | Raise e => Raise e
            end) as [m0|e]; cbn.
  - intros [= <-]. split; [|split; reflexivity].
    apply generation_info_within_limits, validate_within_limits.
  - destruct (is_json_decode_error e); [|discriminate].
    intros [= <-]. split; [|split; reflexivity].
    apply generation_info_within_limits, validate_within_limits.
Qed.

Lemma generation_info_fields (m : Metadata) (now topic : string) :
  title (with_generation_info m now topic) = title m /\
  tags (with_generation_info m now topic) = tags m /\
  hashtags (with_generation_info m now topic) = hashtags m /\
  keywords (with_generation_info m now topic) = keywords m.
Proof. repeat split. Qed.

Lemma generate_metadata_fallback_value content json_loads now
    (script_data : ScriptData) (text : string) (e : exc) :
  strip_code_fence (PyText.strip content) = Ret text ->
  json_loads text = Raise e ->
  is_json_decode_error e = true ->
  generate_metadata (Ret content) json_loads now script_data
  = Ret (with_generation_info
           (_validate_metadata
              (fallback_metadata (get (topic script_data) "Technology")))
           now (get (topic script_data) "Technology")).
Proof.
  intros Hfence Hjson He. unfold generate_metadata.
  cbn [bind catch outcome_monad].
  rewrite Hfence, Hjson, He. reflexivity.
Qed.

Lemma fallback_title_kept (topic : string) :
  title (_validate_metadata (fallback_metadata topic))
  = Some (PyStr.take 60 topic).
Proof.
  rewrite title_validated. unfold validate_title.
  assert (H : (60 <? String.length
                       (get (title (fallback_metadata topic)) "")) = false).
  { apply Nat.ltb_ge. unfold fallback_metadata. cbn [title get].
    rewrite length_take. lia. }
  rewrite H. reflexivity.
Qed.

(** X12.  When [json.loads] raises [JSONDecodeError] on the model's
    answer (the text the code block removal left), [generate_metadata]
    does not fail: it returns the fallback metadata, whose title is the
    first 60 characters of the topic, with the four fixed tags and the
    three fixed hashtags. *)
Theorem generate_metadata_falls_back content json_loads now
    (script_data : ScriptData) (text : string) (e : exc) :
  strip_code_fence (PyText.strip content) = Ret text ->
  json_loads text = Raise e ->
  is_json_decode_error e = true ->
  exists m,
    generate_metadata (Ret content) json_loads now script_data = Ret m /\
    title m = Some (PyStr.take 60 (get (topic script_data) "Technology")) /\
    tags m = Some ["technology"; "tech"; "tutorial"; "education"] /\
    hashtags m = Some ["#tech"; "#technology"; "#tutorial"] /\
    keywords m = Some [get (topic script_data) "Technology"].
Proof.
  intros Hfence Hjson He.
  eexists. split;
    [exact (@generate_metadata_fallback_value content json_loads now
              script_data text e Hfence Hjson He)|].
  destruct (generation_info_fields
              (_validate_metadata
                 (fallback_metadata (get (topic script_data) "Technology")))
              now (get (topic script_data) "Technology"))
    as (-> & -> & -> & ->).
  set (t := get (topic script_data) "Technology").
  split; [apply fallback_title_kept|].
  rewrite tags_validated, hashtags_validated.
  destruct (validate_keeps_the_rest (fallback_metadata t)) as (Hk & _).
  rewrite Hk. repeat split.
Qed.

End MetadataGeneration.

Lemma generate_metadata_within_limits_witness :
  let m := SEOOptimizerCalls.with_generation_info
             (SEOOptimizer._validate_metadata oversized_metadata)
             "2025-01-01T00:00:00" "cloud computing explained" in
  within_limits m /\
  generated_at m = Some "2025-01-01T00:00:00" /\
  original_topic m = Some "cloud computing explained".
Proof.
  apply (@generate_metadata_within_limits (Ret "{ }")
           (fun _ => Ret oversized_metadata) "2025-01-01T00:00:00"
           Samples.script).
  reflexivity.
Defined.

Lemma generate_metadata_falls_back_witness :
  loads_empty_object "{}"
    = Ret (mkMeta None None None None None None None None) /\
  exists m,
    SEOOptimizerCalls.generate_metadata (Ret " Sorry, I cannot help. ")
      loads_empty_object "2025-01-01T00:00:00" Samples.script
    = Ret m /\
    title m = Some "cloud computing explained" /\
    tags m = Some ["technology"; "tech"; "tutorial"; "education"] /\
    hashtags m = Some ["#tech"; "#technology"; "#tutorial"] /\
    keywords m = Some ["cloud computing explained"].
Proof.
  split; [reflexivity|].
  apply (@generate_metadata_falls_back " Sorry, I cannot help. "
           loads_empty_object "2025-01-01T00:00:00" Samples.script
           "Sorry, I cannot help." not_json); reflexivity.
Defined.

(** ** Thumbnail text *)

Section ThumbnailText.

Import SEOOptimizerCalls.

Lemma lstrip_head (p : ascii -> bool) (s : string) c rest :
  PyText.lstrip p s = String c rest -> p c = false.
Proof.
  induction s as [|x s IH]; cbn; [discriminate|].
  destruct (p x) eqn:Hx; [exact IH|]. now intros [= <- _].
Qed.

Lemma rstrip_prefix (p : ascii -> bool) (s : string) :
  exists tail, s = PyText.rstrip p s +++ tail.
Proof.
  induction s as [|x s [tail IH]]; [now exists EmptyString|].
  cbn [PyText.rstrip].
  destruct (PyText.rstrip p s) as [|y r].
  - destruct (p x); [now exists (String x s)|].
    exists s. reflexivity.
  - exists tail. cbn [String.append]. f_equal. exact IH.
Qed.

Lemma rstrip_last (p : ascii -> bool) (s : string) :
  forall before c,
    PyText.rstrip p s = before +++ String c EmptyString -> p c = false.
Proof.
  induction s as [|x s IH]; intros before c; cbn [PyText.rstrip].
  - destruct before; discriminate.
  - destruct (PyText.rstrip p s) as [|y r].
    + destruct (p x) eqn:Hx.
      * destruct before; discriminate.
      * destruct before as [|b before]; cbn.
        -- now intros [= <-].
        -- intros [= _ H]. destruct before; discriminate.
    + destruct before as [|b before]; cbn.
      * discriminate.
      * intros [= _ H]. exact (IH _ _ H).
Qed.

(** What [strip(chars)] leaves neither starts nor ends with one of the
    characters. *)
Lemma strip_chars_ends (p : ascii -> bool) (s : string) :
  (forall c rest, PyText.strip_chars p s = String c rest -> p c = false) /\
  (forall before c,
     PyText.strip_chars p s = before +++ String c EmptyString -> p c = false).
Proof.
  unfold PyText.strip_chars. split.
  - intros c rest H.
    destruct (rstrip_prefix p (PyText.lstrip p s)) as [tail Ht].
    rewrite H in Ht. cbn in Ht. exact (lstrip_head _ _ Ht).
  - apply rstrip_last.
Qed.

(** X13.  [generate_thumbnail_text] never needs the model for a title of
    at most three words: it returns the title as it is.  For a longer
    title, when the call to the model fails it returns the first three
    words of the title joined by single spaces, a text of exactly these
    three words. *)
Theorem generate_thumbnail_text_without_the_model (metadata : Metadata) :
  let words := PyStr.split (get (title metadata) "") in
  (List.length words <= 3 ->
   forall completion,
     generate_thumbnail_text completion metadata = get (title metadata) "") /\
  (3 < List.length words ->
   forall e, exists a b c rest,
     words = a :: b :: c :: rest /\
     generate_thumbnail_text (Raise e) metadata
       = a +++ " " +++ b +++ " " +++ c /\
     PyStr.split (a +++ " " +++ b +++ " " +++ c) = [a; b; c]).
Proof.
  cbv zeta. unfold generate_thumbnail_text. split.
  - intros Hshort completion. apply Nat.leb_le in Hshort. now rewrite Hshort.
  - intros Hlong e. apply Nat.leb_gt in Hlong as Hb. rewrite Hb.
    pose proof (split_tokens (get (title metadata) "")) as Htok.
    destruct (PyStr.split (get (title metadata) "")) as [|a [|b [|c rest]]];
      cbn in Hlong; try lia.
    exists a, b, c, rest. split; [reflexivity|]. split; [reflexivity|].
    apply (@split_join [a; b; c]).
    inversion Htok as [|? ? Ha Htok1]; subst.
    inversion Htok1 as [|? ? Hb' Htok2]; subst.
    inversion Htok2 as [|? ? Hc' _]; subst.
    repeat constructor; assumption.
Qed.

(** X14.  The text [generate_thumbnail_text] makes of the model's answer
    neither starts nor ends with a quote character. *)
Theorem generate_thumbnail_text_has_no_quotes_around
    (content : string) (metadata : Metadata) :
  3 < List.length (PyStr.split (get (title metadata) "")) ->
  let text := generate_thumbnail_text (Ret content) metadata in
  (forall c rest, text = String c rest -> PyText.is_quote c = false) /\
  (forall before c,
     text = before +++ String c EmptyString -> PyText.is_quote c = false).
Proof.
  intros Hlong. cbv zeta. unfold generate_thumbnail_text.
  apply Nat.leb_gt in Hlong. rewrite Hlong.
  apply strip_chars_ends.
Qed.

End ThumbnailText.

Lemma generate_thumbnail_text_without_the_model_witness :
  SEOOptimizerCalls.generate_thumbnail_text (Ret "CLOUD") (titled "A B C")
    = "A B C" /\
  exists a b c rest,
    PyStr.split (get (title (titled "Cloud Computing Explained For Beginners")) "")
      = a :: b :: c :: rest /\
    SEOOptimizerCalls.generate_thumbnail_text (Raise Samples.smtp_down)
      (titled "Cloud Computing Explained For Beginners")
      = a +++ " " +++ b +++ " " +++ c /\
    PyStr.split (a +++ " " +++ b +++ " " +++ c) = [a; b; c].
Proof.
  split.
  - apply (proj1 (generate_thumbnail_text_without_the_model (titled "A B C"))).
    vm_compute. repeat constructor.
  - apply (proj2 (generate_thumbnail_text_without_the_model
                    (titled "Cloud Computing Explained For Beginners"))).
    vm_compute. repeat constructor.
Defined.

Lemma generate_thumbnail_text_has_no_quotes_around_witness :
  let text := SEOOptimizerCalls.generate_thumbnail_text
                (Ret " 'CLOUD BASICS' ")
                (titled "Cloud Computing Explained For Beginners") in
  text = "CLOUD BASICS" /\
  (forall c rest, text = String c rest -> PyText.is_quote c = false) /\
  (forall before c,
     text = before +++ String c EmptyString -> PyText.is_quote c = false).
Proof.
  split; [vm_compute; reflexivity|].
  apply (@generate_thumbnail_text_has_no_quotes_around " 'CLOUD BASICS' "
           (titled "Cloud Computing Explained For Beginners")).
  vm_compute. repeat constructor.
Defined.

(** ** Script generation *)

Section ScriptGeneration.

Import ContentGeneratorCalls.

(** X15.  When the model's answer is not JSON, [generate_script] does
    not fail: it builds a script around the answer [text] (as the code
    block removal left it), and the narration of that script reads the
    first 200 characters of the answer and then the whole answer again,
    between the fixed hook and conclusion. *)
Theorem generate_script_falls_back new_topic content json_loads now
    self_model (subject : string) (text : string) (e : exc) :
  PyText.truthy subject = true ->
  strip_code_fence (PyText.strip content) = Ret text ->
  json_loads text = Raise e ->
  is_json_decode_error e = true ->
  exists g,
    generate_script new_topic (Ret content) json_loads now self_model
      (Some subject) = Ret g /\
    topic (script g) = Some subject /\
    ContentGenerator.format_script_for_tts (script g)
    = "Welcome to today's video!" +++ ContentGenerator.pause +++
      PyStr.take 200 text +++ ContentGenerator.pause +++
      text +++ ContentGenerator.pause +++ "Thanks for watching!".
Proof.
  intros Ht Hfence Hjson He. unfold generate_script.
  cbn [bind catch outcome_monad get]. rewrite Ht, Hfence, Hjson, He.
  eexists. split; [reflexivity|]. split; reflexivity.
Qed.

End ScriptGeneration.

Lemma generate_script_falls_back_witness :
  exists g,
    ContentGeneratorCalls.generate_script (Ret "quantum computing basics")
      (Ret "Sorry, no JSON today.") (fun _ => Raise not_json)
      "2025-01-01T00:00:00" "gpt-4o-mini" (Some "cloud computing explained")
    = Ret g /\
    topic (ContentGeneratorCalls.script g) = Some "cloud computing explained" /\
    ContentGenerator.format_script_for_tts (ContentGeneratorCalls.script g)
    = "Welcome to today's video!" +++ ContentGenerator.pause +++
      PyStr.take 200 "Sorry, no JSON today." +++ ContentGenerator.pause +++
      "Sorry, no JSON today." +++ ContentGenerator.pause +++
      "Thanks for watching!".
Proof.
  apply (@generate_script_falls_back (Ret "quantum computing basics")
           "Sorry, no JSON today." (fun _ => Raise not_json)
           "2025-01-01T00:00:00" "gpt-4o-mini" "cloud computing explained"
           "Sorry, no JSON today." not_json); reflexivity.
Defined.

(** ** Wrapping the thumbnail text *)

Section Wrapping.

Import ThumbnailCreator.

Lemma split_from_space_app (a b : string) (c : ascii) :
  PyStr.isspace c = true ->
  forall cur,
    PyStr.split_from cur (a +++ String c b)
    = PyStr.split_from cur a ++ PyStr.split b.
Proof.
  intros Hc. induction a as [|x a IH]; intros cur.
  - cbn [String.append PyStr.split_from]. rewrite Hc.
    now destruct cur.
  - cbn [String.append PyStr.split_from].
    destruct (PyStr.isspace x); [|apply IH].
    destruct cur; rewrite IH; reflexivity.
Qed.

Lemma split_lines (groups : list (list string)) :
  Forall (fun g => g <> [] /\ Forall (fun w => is_token w = true) g) groups ->
  PyStr.split (PyStr.join ContentGenerator.newline
                 (map (PyStr.join " ") groups))
  = concat groups.
Proof.
  induction 1 as [|g l [Hne Htok] Hl IH]; [reflexivity|].
  cbn [map concat]. destruct l as [|g2 l].
  - cbn [map PyStr.join String.concat concat]. rewrite app_nil_r.
    now apply split_join.
  - cbn [map] in *. rewrite join_cons.
    unfold ContentGenerator.newline at 1. cbn [String.append].
    unfold PyStr.split at 1. rewrite split_from_space_app by reflexivity.
    rewrite IH. f_equal. now apply split_join.
Qed.

Lemma total_length_app (l1 l2 : list string) :
  total_length (l1 ++ l2) = total_length l1 + total_length l2.
Proof.
  unfold total_length. rewrite map_app, list_sum_app. reflexivity.
Qed.

Lemma length_join_snoc (g : list string) (w : string) :
  g <> [] ->
  String.length (PyStr.join " " (g ++ [w]))
  = String.length (PyStr.join " " g) + 1 + String.length w.
Proof.
  destruct g as [|x l]; [congruence|]. intros _.
  change ((x :: l) ++ [w]) with (x :: (l ++ [w])).
  rewrite !length_join, length_app.
  change (total_length (x :: l ++ [w]))
    with (String.length x + total_length (l ++ [w])).
  change (total_length (x :: l)) with (String.length x + total_length l).
  rewrite total_length_app. unfold total_length. cbn. lia.
Qed.

Lemma join_nonempty (g : list string) :
  g <> [] -> Forall (fun w => is_token w = true) g -> PyStr.join " " g <> "".
Proof.
  destruct g as [|x l]; [congruence|]. intros _ Htok.
  inversion Htok as [|? ? Hx _]; subst.
  unfold is_token in Hx. apply andb_prop in Hx as [Hx _].
  destruct x; [discriminate|]. destruct l; discriminate.
Qed.

Lemma flush_groups (current : list string) :
  flush current
  = map (PyStr.join " ") (match current with [] => [] | _ => [current] end).
Proof. now destruct current. Qed.

(** One turn of the loop keeps the invariant and adds the word. *)
Lemma wrap_word_invariant (max_chars : nat) st groups (word : string) :
  wrap_invariant max_chars st groups ->
  is_token word = true ->
  exists groups',
    wrap_invariant max_chars (wrap_word max_chars st word) groups' /\
    concat groups' ++ current_line (wrap_word max_chars st word)
    = (concat groups ++ current_line st) ++ [word].
Proof.
  intros (Hlines & Hgroups & Htok & Hcur) Hword. unfold wrap_word.
  destruct (current_length st + String.length word + 1 <=? max_chars) eqn:Hfit.
  - apply Nat.leb_le in Hfit. exists groups. unfold wrap_invariant.
    cbn [lines current_line current_length].
    split; [|now rewrite app_assoc].
    split; [exact Hlines|]. split; [exact Hgroups|].
    split; [apply Forall_app; split; [exact Htok|now constructor]|].
    intros _. split; [|left; lia].
    destruct (current_line st) as [|x l] eqn:Hcl.
    + cbn. lia.
    + rewrite length_join_snoc by discriminate.
      destruct Hcur as [Hlen _]; [discriminate|]. lia.
  - destruct (current_line st) as [|x l] eqn:Hcl.
    + exists groups. unfold wrap_invariant.
      cbn [lines current_line current_length flush].
      split; [|now rewrite app_nil_r].
      split; [now rewrite app_nil_r|]. split; [exact Hgroups|].
      split; [now constructor|].
      intros _. cbn. split; [lia|now right].
    + exists (groups ++ [x :: l]). unfold wrap_invariant.
      cbn [lines current_line current_length flush].
      split; [|now rewrite concat_app; cbn [concat]; rewrite app_nil_r].
      split; [now rewrite map_app, Hlines|].
      split.
      * apply Forall_app. split; [exact Hgroups|].
        constructor; [|constructor].
        destruct Hcur as [Hlen Hbound]; [discriminate|].
        split; [discriminate|]. split; [exact Htok|].
        destruct Hbound as [Hb|Hb]; [left; lia|now right].
      * split; [now constructor|].
        intros _. cbn. split; [lia|now right].
Qed.

Lemma wrap_fold_invariant (max_chars : nat) (words : list string) :
  Forall (fun w => is_token w = true) words ->
  forall st groups,
    wrap_invariant max_chars st groups ->
    exists groups',
      wrap_invariant max_chars (fold_left (wrap_word max_chars) words st)
                     groups' /\
      concat groups'
        ++ current_line (fold_left (wrap_word max_chars) words st)
      = (concat groups ++ current_line st) ++ words.
Proof.
  induction 1 as [|w l Hw _ IH]; intros st groups Hinv.
  - exists groups. split; [exact Hinv|now rewrite app_nil_r].
  - destruct (@wrap_word_invariant max_chars st groups w Hinv Hw)
    as (g1 & Hinv1 & Heq1).
    destruct (IH _ _ Hinv1) as (g2 & Hinv2 & Heq2).
    exists g2. cbn [fold_left]. split; [exact Hinv2|].
    rewrite Heq2, Heq1, <- app_assoc. reflexivity.
Qed.

(** The lines of [_wrap_text] are good groups of the words of the text,
    in order. *)
Lemma wrap_lines_groups (text : string) (max_chars : nat) :
  exists groups,
    wrap_lines text max_chars = map (PyStr.join " ") groups /\
    Forall (good_group max_chars) groups /\
    concat groups = PyStr.split text.
Proof.
  unfold wrap_lines.
  assert (Hinit : wrap_invariant max_chars (mkWrapping [] [] 0) []).
  { unfold wrap_invariant. cbn [lines current_line current_length map].
    split; [reflexivity|]. split; [constructor|]. split; [constructor|].
    intros H. congruence. }
  destruct (@wrap_fold_invariant max_chars _ (split_tokens text) _ _ Hinit)
    as (groups & (Hlines & Hgroups & Htok & Hcur) & Heq).
  cbn [concat app current_line] in Heq.
  set (st := fold_left (wrap_word max_chars) (PyStr.split text)
                       (mkWrapping [] [] 0)) in *.
  exists (groups ++ match current_line st with [] => [] | _ => [current_line st] end).
  rewrite map_app, <- flush_groups, Hlines.
  split; [reflexivity|]. split.
  - apply Forall_app. split; [exact Hgroups|].
    destruct (current_line st) as [|x l] eqn:Hcl; constructor; [|constructor].
    destruct Hcur as [Hlen Hbound]; [discriminate|].
    split; [discriminate|]. split; [exact Htok|].
    destruct Hbound as [Hb|Hb]; [left; lia|now right].
  - rewrite concat_app, <- Heq. f_equal.
    destruct (current_line st); cbn; [reflexivity|now rewrite app_nil_r].
Qed.

(** X16.  [_wrap_text] loses no word and adds none: the wrapped text has
    the words of the text, in the same order. *)
Theorem wrap_text_keeps_the_words (text : string) (max_chars : nat) :
  PyStr.split (_wrap_text text max_chars) = PyStr.split text.
Proof.
  unfold _wrap_text.
  destruct (wrap_lines_groups text max_chars) as (groups & -> & Hgood & <-).
  apply split_lines.
  apply Forall_impl with (2 := Hgood).
  intros g (Hne & Htok & _). now split.
Qed.

(** X17.  No line [_wrap_text] makes is empty, and a line is longer than
    [max_chars] only when it is a single word. *)
Theorem wrap_text_line_width (text : string) (max_chars : nat) :
  _wrap_text text max_chars
    = PyStr.join ContentGenerator.newline (wrap_lines text max_chars) /\
  Forall (fun line =>
            line <> "" /\
            (String.length line <= max_chars \/ is_token line = true))
         (wrap_lines text max_chars).
Proof.
  split; [reflexivity|].
  destruct (wrap_lines_groups text max_chars) as (groups & -> & Hgood & _).
  apply Forall_map. apply Forall_impl with (2 := Hgood).
  intros g (Hne & Htok & Hfit). split; [now apply join_nonempty|].
  destruct Hfit as [Hfit|Hone]; [now left|right].
  destruct g as [|w [|w2 l]]; try discriminate.
  now inversion Htok.
Qed.

Lemma wrap_all_fit (max_chars : nat) (words : list string) :
  forall current clen,
    clen + total_length words + List.length words <= max_chars ->
    fold_left (wrap_word max_chars) words (mkWrapping [] current clen)
    = mkWrapping [] (current ++ words)
                 (clen + total_length words + List.length words).
Proof.
  induction words as [|w l IH]; intros current clen Hfit.
  - cbn. rewrite app_nil_r. f_equal. unfold total_length. cbn. lia.
  - assert (Hc : total_length (w :: l) = String.length w + total_length l)
      by reflexivity.
    rewrite Hc in *. cbn [List.length fold_left] in *.
    assert (Hstep : wrap_word max_chars (mkWrapping [] current clen) w
                    = mkWrapping [] (current ++ [w])
                                 (clen + String.length w + 1)).
    { unfold wrap_word. cbn [lines current_line current_length].
      replace (clen + String.length w + 1 <=? max_chars) with true
        by (symmetry; apply Nat.leb_le; lia).
      reflexivity. }
    rewrite Hstep, IH by lia. rewrite <- app_assoc. f_equal. lia.
Qed.

(** X18.  A text whose words, joined by single spaces, are shorter than
    [max_chars] stays on one line: the result is these words joined by
    single spaces.  A text without a word gives the empty string. *)
Theorem wrap_text_of_a_short_text (text : string) (max_chars : nat) :
  let words := PyStr.split text in
  (words = [] -> _wrap_text text max_chars = "") /\
  (words <> [] ->
   String.length (PyStr.join " " words) < max_chars ->
   _wrap_text text max_chars = PyStr.join " " words).
Proof.
  cbv zeta. unfold _wrap_text, wrap_lines. split.
  - intros ->. reflexivity.
  - intros Hne Hshort.
    destruct (PyStr.split text) as [|w l] eqn:Hw; [congruence|].
    rewrite length_join in Hshort. change (String.length " ") with 1 in Hshort.
    rewrite wrap_all_fit by (cbn [List.length]; lia).
    cbn [lines current_line app flush]. reflexivity.
Qed.

End Wrapping.

Lemma wrap_text_of_a_short_text_witness :
  ThumbnailCreator._wrap_text "  CLOUD   EXPLAINED " 20 = "CLOUD EXPLAINED".
Proof.
  refine (proj2 (wrap_text_of_a_short_text "  CLOUD   EXPLAINED " 20) _ _).
  - vm_compute. discriminate.
  - vm_compute. repeat constructor.
Defined.

(** ** The uploader *)

Section Uploading.

Import YouTubeUploader.

Variable env : environment.


Lemma error_result_status (e : exc) :
  status_is (error_result e) "error" = true /\
  dict_get "error" (error_result e) = Some (PStr (exc_msg e)).
Proof. split; reflexivity. Qed.

Lemma upload_attempt_returns metadata thumbnail_path t o :
  upload_attempt env metadata thumbnail_path = Some (t, o) ->
  exists d,
    o = Ret d /\
    (status_is d "success" = true \/
     (status_is d "error" = true /\
      exists msg, dict_get "error" d = Some (PStr msg))).
Proof.
  unfold upload_attempt.
  destruct (videos_insert env) as [[]|e].
  - destruct (upload_chunks (next_chunk env)) as [[t1 [response_id|e]]|];
      [| |discriminate].
    + unfold after_response, upload_thumbnail.
      cbn [bind catch ret raise Logged_monad act].
      destruct response_id as [id|].
      * destruct (EmailNotifier.truthy thumbnail_path && thumbnail_exists env).
        -- destruct (thumbnails_set env) as [[]|e];
             [|destruct (is_http_error env e)]; cbn; intros [= _ <-];
             eexists; split; try reflexivity;
             try (left; reflexivity);
             right; split; [reflexivity|eexists; reflexivity].
        -- cbn. intros [= _ <-]. eexists. split; [reflexivity|].
           left. reflexivity.
      * cbn. intros [= _ <-]. eexists. split; [reflexivity|].
        right. split; [reflexivity|eexists; reflexivity].
    + intros [= _ <-]. eexists. split; [reflexivity|].
      right. split; [reflexivity|eexists; reflexivity].
  - intros [= _ <-]. eexists. split; [reflexivity|].
    right. split; [reflexivity|eexists; reflexivity].
Qed.

(** X19.  [upload_video] raises only when [authenticate] or the opening
    of the video file raises; after that every failure is an answer: a
    dict with status ['success'], or with status ['error'] and the
    message under [error]. *)
Theorem upload_video_answers (self_youtube : bool) self_credentials
    video_path metadata thumbnail_path t o :
  upload_video env self_youtube self_credentials video_path metadata
    thumbnail_path = Some (t, o) ->
  match o with
  | Raise e =>
      (self_youtube = false /\
       snd (authenticate env self_credentials) = Raise e) \/
      media_file_upload env = Raise e
  | Ret d =>
      status_is d "success" = true \/
      (status_is d "error" = true /\
       exists msg, dict_get "error" d = Some (PStr msg))
  end.
Proof.
  unfold upload_video.
  destruct self_youtube.
  - cbn [bind ret Logged_monad act].
    destruct (media_file_upload env) as [[]|e].
    + destruct (upload_attempt env metadata thumbnail_path) as [[t1 o1]|] eqn:Ha;
        [|discriminate].
      intros [= _ <-].
      destruct (upload_attempt_returns _ _ Ha) as (d & -> & Hd). exact Hd.
    + intros [= _ <-]. now right.
  - cbn [bind Logged_monad].
    destruct (authenticate env self_credentials) as [ta [[]|e]].
    + cbn [act]. destruct (media_file_upload env) as [[]|e].
      * destruct (upload_attempt env metadata thumbnail_path)
          as [[t1 o1]|] eqn:Ha; [|discriminate].
        intros [= _ <-].
        destruct (upload_attempt_returns _ _ Ha) as (d & -> & Hd). exact Hd.
      * intros [= _ <-]. now right.
    + intros [= _ <-]. left. now split.
Qed.



(** X22.  With a saved token that is still valid, [authenticate] reads
    it and builds the service: it refreshes nothing and does not write
    the token file. *)
Theorem authenticate_with_a_valid_token self_credentials (c : credentials) :
  token_file_exists env = true ->
  pickle_load env = Ret c ->
  valid c = true ->
  authenticate env self_credentials = ([PickleLoad; Build], build env).
Proof.
  intros Hfile Hload Hvalid. unfold authenticate.
  rewrite Hfile, Hload. cbn [bind ret Logged_monad act]. rewrite Hvalid.
  cbn [negb]. destruct (build env); reflexivity.
Qed.

End Uploading.

Lemma upload_video_answers_witness :
  exists t d,
    YouTubeUploader.upload_video (sample_uploader (Ret tt)) true None
      "output/video.mp4" sample_metadata (Some "output/thumbnail.png")
    = Some (t, Ret d) /\
    (status_is d "success" = true \/
     (status_is d "error" = true /\
      exists msg, dict_get "error" d = Some (PStr msg))).
Proof.
  eexists _, _. split; [vm_compute; reflexivity|].
  exact (@upload_video_answers (sample_uploader (Ret tt)) true None
           "output/video.mp4" sample_metadata (Some "output/thumbnail.png")
           _ (Ret _) eq_refl).
Defined.



Lemma authenticate_with_a_valid_token_witness :
  YouTubeUploader.authenticate uploader_with_token None
  = ([YouTubeUploader.PickleLoad; YouTubeUploader.Build], Ret tt).
Proof.
  exact (@authenticate_with_a_valid_token uploader_with_token None
           (YouTubeUploader.mkCredentials true false true)
           eq_refl eq_refl eq_refl).
Defined.
